(** * camera_stream_api: capture selection, switching and the MJPEG stream

    A shallow embedding of [camera_server/camera_stream_api.py].

    The module keeps three globals, [CAMERA_SOURCE], [opencv_camera] and
    [libcamera_camera]; every handler reads and writes them.  They are the
    fields of [State] below, and every Python function is a computation in
    a small state / exception / trace monad [M].

    The camera and codec libraries (cv2, picamera2) are outside the
    repository.  What a library call answers is taken from a [World]: the
    functions are proved correct for every answer the libraries can give.
    The calls made on device objects are recorded as [Event]s, so that one
    can say which handle was read, closed or opened.

    Conventions:
    - Python [str] is [string]; [str.lower] maps A-Z to a-z (the only
      inputs whose lower-cased form can equal ["opencv"] or ["libcamera"]
      are ASCII, so comparisons against these literals are exact);
    - Python [bytes] is [list byte];
    - [time.sleep] is the event [Sleep] with the delay in milliseconds;
    - [logger] calls change neither state nor control flow and are left out;
    - [isOpened], [release] and [close] do not raise;
    - every object a constructor returns gets a fresh identity ([next_obj]),
      so that a reopened handle can be told from the one it replaces. *)

From Stdlib Require Import Bool Arith List Lia.
From Stdlib Require Import Strings.String Strings.Ascii Strings.Byte.
From Stdlib Require Import NArith ZArith.
Import ListNotations.

Local Open Scope string_scope.
Local Open Scope list_scope.

(** ** Python values *)

Definition bytes := list byte.

(** [b'...'] literals. *)
Definition b (s : string) : bytes := list_byte_of_string s.
Definition CRLF : bytes := [x0d; x0a].

Definition lower_ascii (c : ascii) : ascii :=
  let n := nat_of_ascii c in
  if ((65 <=? n)%nat && (n <=? 90)%nat)%bool
  then ascii_of_nat (n + 32) else c.

(** [str.lower]. *)
Fixpoint lower (s : string) : string :=
  match s with
  | EmptyString => EmptyString
  | String c r => String (lower_ascii c) (lower r)
  end.

(** [x in [a, b, ...]] on strings. *)
Fixpoint str_in (x : string) (l : list string) : bool :=
  match l with
  | [] => false
  | y :: r => (String.eqb x y || str_in x r)%bool
  end.

(** A numpy image: rows of pixels, a pixel being its channel values. *)
Definition Pixel := list N.
Definition Frame := list (list Pixel).

(** [frame.size]: the number of scalars in the array. *)
Definition size (f : Frame) : nat :=
  list_sum (map (fun row => list_sum (map (@List.length N) row)) f).

(** ** Device objects *)

(** A [cv2.VideoCapture] object: its identity and what [isOpened()] answers. *)
Record VideoCapture := mkVC { vc_id : nat; vc_opened : bool }.

(** A [Picamera2] object: its identity and whether it is started. *)
Record Picamera2 := mkPC { pc_id : nat; pc_started : bool }.

Definition isOpened (c : VideoCapture) : bool := vc_opened c.

(** ** Globals *)

Record State := mkState {
  CAMERA_SOURCE : string;
  opencv_camera : option VideoCapture;
  libcamera_camera : option Picamera2;
  next_obj : nat  (* identity given to the next object constructed *)
}.

Definition set_CAMERA_SOURCE (s : string) (st : State) : State :=
  mkState s (opencv_camera st) (libcamera_camera st) (next_obj st).
Definition set_opencv_camera (c : option VideoCapture) (st : State) : State :=
  mkState (CAMERA_SOURCE st) c (libcamera_camera st) (next_obj st).
Definition set_libcamera_camera (c : option Picamera2) (st : State) : State :=
  mkState (CAMERA_SOURCE st) (opencv_camera st) c (next_obj st).
Definition bump_obj (st : State) : State :=
  mkState (CAMERA_SOURCE st) (opencv_camera st) (libcamera_camera st)
          (S (next_obj st)).

(** ** What the libraries answer *)

(** [cv2.VideoCapture(OPENCV_DEVICE)]: raises, or returns an object that is
    opened or not. *)
Inductive VCOutcome := VCRaise | VCObj (opened : bool).

(** The body of [init_libcamera], by the first statement that raises. *)
Inductive PCOutcome :=
| PCImportError   (* from picamera2 import ... : ImportError *)
| PCCtorError     (* load_tuning_file or Picamera2(...) raises *)
| PCConfigError   (* create_preview_configuration or configure raises *)
| PCStartError    (* start raises *)
| PCStarted.      (* everything went through *)

(** [opencv_camera.read()]. *)
Inductive VCRead := VRRaise | VRFail | VROk (f : Frame).

(** [libcamera_camera.capture_array()]. *)
Inductive PCCapture := CARaise | CANone | CAArray (f : Frame).

(** [cv2.imencode('.jpg', frame, ...)]: raises or returns [(ret, buffer)]. *)
Inductive EncOutcome := EncRaise | EncRet (ret : bool) (buffer : bytes).

Record World := mkWorld {
  w_VideoCapture : VCOutcome;
  w_Picamera2 : PCOutcome;
  w_read : VCRead;
  w_capture_array : PCCapture;
  w_imencode : EncOutcome
}.

(** ** Effects *)

Inductive Event :=
| VideoCapture_call                (* cv2.VideoCapture(...) *)
| VC_read (h : nat)                (* h.read() *)
| VC_release (h : nat)             (* h.release() *)
| Picamera2_import                 (* from picamera2 import ... *)
| Picamera2_call                   (* Picamera2(tuning=...) *)
| PC_configure (h : nat)
| PC_start (h : nat)
| PC_capture_array (h : nat)
| PC_close (h : nat)
| Sleep (ms : nat)                 (* time.sleep *)
| Yield (chunk : bytes).           (* yield in gen_frames *)

Inductive exn := ImportError | Error.

Inductive outcome (A : Type) :=
| Ret (a : A)
| Raise (e : exn).
Arguments Ret {A} a.
Arguments Raise {A} e.

Definition M (A : Type) : Type := State -> outcome A * State * list Event.

Definition ret {A} (a : A) : M A := fun st => (Ret a, st, []).
Definition raise {A} (e : exn) : M A := fun st => (Raise e, st, []).

Definition bind {A B} (m : M A) (k : A -> M B) : M B :=
  fun st =>
    match m st with
    | (Ret a, st1, t1) =>
        match k a st1 with (r, st2, t2) => (r, st2, t1 ++ t2) end
    | (Raise e, st1, t1) => (Raise e, st1, t1)
    end.

(** [try: body  except ...]: [handler e] is the clause that matches [e], if
    any. *)
Definition try_except {A} (body : M A) (handler : exn -> option (M A))
    : M A :=
  fun st =>
    match body st with
    | (Ret a, st1, t1) => (Ret a, st1, t1)
    | (Raise e, st1, t1) =>
        match handler e with
        | Some h => match h st1 with (r, st2, t2) => (r, st2, t1 ++ t2) end
        | None => (Raise e, st1, t1)
        end
    end.

Definition get : M State := fun st => (Ret st, st, []).
Definition modify (f : State -> State) : M unit := fun st => (Ret tt, f st, []).
Definition emit (e : Event) : M unit := fun st => (Ret tt, st, [e]).

Declare Scope py_scope.
Delimit Scope py_scope with py.
Notation "x <- m ;; k" := (bind m (fun x => k))
  (at level 61, m at next level, right associativity) : py_scope.
Notation "m ;; k" := (bind m (fun _ => k))
  (at level 61, right associativity) : py_scope.
Local Open Scope py_scope.

(** [except Exception as e: k]. *)
Definition except_Exception {A} (k : M A) : exn -> option (M A) :=
  fun _ => Some k.

Definition result {A} (x : outcome A * State * list Event) : outcome A :=
  fst (fst x).
Definition state_of {A} (x : outcome A * State * list Event) : State :=
  snd (fst x).
Definition trace {A} (x : outcome A * State * list Event) : list Event :=
  snd x.

(** ** Library calls *)

Definition sleep (ms : nat) : M unit := emit (Sleep ms).

(** [cv2.VideoCapture(OPENCV_DEVICE)]. *)
Definition cv2_VideoCapture (w : World) : M VideoCapture :=
  emit VideoCapture_call ;;
  match w_VideoCapture w with
  | VCRaise => raise Error
  | VCObj o =>
      st <- get ;;
      modify bump_obj ;;
      ret (mkVC (next_obj st) o)
  end.

(** [opencv_camera.release()], on the object the global refers to. *)
Definition VideoCapture_release (c : VideoCapture) : M unit :=
  emit (VC_release (vc_id c)) ;;
  modify (set_opencv_camera (Some (mkVC (vc_id c) false))).

(** [opencv_camera.read()]: a capture that is not opened grabs nothing. *)
Definition VideoCapture_read (w : World) (c : VideoCapture)
    : M (bool * option Frame) :=
  emit (VC_read (vc_id c)) ;;
  if vc_opened c then
    match w_read w with
    | VRRaise => raise Error
    | VRFail => ret (false, None)
    | VROk f => ret (true, Some f)
    end
  else ret (false, None).

(** [libcamera_camera.close()]. *)
Definition Picamera2_close (c : Picamera2) : M unit :=
  emit (PC_close (pc_id c)) ;;
  modify (set_libcamera_camera (Some (mkPC (pc_id c) false))).

(** [libcamera_camera.capture_array()]. *)
Definition Picamera2_capture_array (w : World) (c : Picamera2)
    : M (option Frame) :=
  emit (PC_capture_array (pc_id c)) ;;
  match w_capture_array w with
  | CARaise => raise Error
  | CANone => ret None
  | CAArray f => ret (Some f)
  end.

(** [cv2.cvtColor(frame, cv2.COLOR_RGB2BGR)]: every pixel has three or four
    channels; the result has three, the first and third exchanged. *)
Definition swap_rb (p : Pixel) : option Pixel :=
  match p with
  | [r; g; bl] => Some [bl; g; r]
  | [r; g; bl; _] => Some [bl; g; r]
  | _ => None
  end.

Fixpoint map_opt {A B} (f : A -> option B) (l : list A) : option (list B) :=
  match l with
  | [] => Some []
  | x :: r =>
      match f x, map_opt f r with
      | Some y, Some r' => Some (y :: r')
      | _, _ => None
      end
  end.

Definition COLOR_RGB2BGR (f : Frame) : option Frame :=
  map_opt (map_opt swap_rb) f.

Definition cv2_cvtColor_RGB2BGR (f : Frame) : M Frame :=
  match COLOR_RGB2BGR f with
  | Some g => ret g
  | None => raise Error
  end.

(** [cv2.imencode('.jpg', frame, [cv2.IMWRITE_JPEG_QUALITY, 80])]. *)
Definition cv2_imencode (w : World) (f : Frame) : M (bool * bytes) :=
  match w_imencode w with
  | EncRaise => raise Error
  | EncRet r buf => ret (r, buf)
  end.

(** [from picamera2 import Picamera2, Preview]. *)
Definition import_picamera2 (w : World) : M unit :=
  emit Picamera2_import ;;
  match w_Picamera2 w with
  | PCImportError => raise ImportError
  | _ => ret tt
  end.

(** [Picamera2(tuning=Picamera2.load_tuning_file("imx708_noir.json"))]. *)
Definition Picamera2_new (w : World) : M Picamera2 :=
  emit Picamera2_call ;;
  match w_Picamera2 w with
  | PCCtorError => raise Error
  | _ =>
      st <- get ;;
      modify bump_obj ;;
      ret (mkPC (next_obj st) false)
  end.

(** [config = c.create_preview_configuration(); ...; c.configure(config)].
    The frame-rate control put in [config] has its own [try] and does not
    change what follows. *)
Definition Picamera2_configure (w : World) (c : Picamera2) : M unit :=
  emit (PC_configure (pc_id c)) ;;
  match w_Picamera2 w with
  | PCConfigError => raise Error
  | _ => ret tt
  end.

(** [c.start()], on the object the global refers to. *)
Definition Picamera2_start (w : World) (c : Picamera2) : M unit :=
  emit (PC_start (pc_id c)) ;;
  match w_Picamera2 w with
  | PCStartError => raise Error
  | _ => modify (set_libcamera_camera (Some (mkPC (pc_id c) true)))
  end.

(** ** The module's functions *)

Definition init_opencv_camera (w : World) : M bool :=
  try_except
    (c <- cv2_VideoCapture w ;;
     modify (set_opencv_camera (Some c)) ;;
     if negb (isOpened c) then ret false
     else ret true)
    (except_Exception (ret false)).

Definition init_libcamera (w : World) : M bool :=
  try_except
    (import_picamera2 w ;;
     c <- Picamera2_new w ;;
     modify (set_libcamera_camera (Some c)) ;;
     Picamera2_configure w c ;;
     Picamera2_start w c ;;
     sleep 2000 ;;
     ret true)
    (fun e =>
       match e with
       | ImportError => Some (ret false)
       | Error => Some (ret false)
       end).

Definition get_frame_opencv (w : World) : M (option Frame) :=
  st <- get ;;
  match opencv_camera st with
  | None => ret None
  | Some c =>
      r <- VideoCapture_read w c ;;
      let '(success, frame) := r in
      if negb success then ret None
      else ret frame
  end.

Definition get_frame_libcamera (w : World) : M (option Frame) :=
  st <- get ;;
  match libcamera_camera st with
  | None => ret None
  | Some c =>
      try_except
        (frame <- Picamera2_capture_array w c ;;
         match frame with
         | None => ret None
         | Some f =>
             if (size f =? 0)%nat then ret None
             else
               g <- cv2_cvtColor_RGB2BGR f ;;
               ret (Some g)
         end)
        (except_Exception (ret None))
  end.

Definition get_frame (w : World) : M (option Frame) :=
  st <- get ;;
  if lower (CAMERA_SOURCE st) =? "libcamera" then get_frame_libcamera w
  else get_frame_opencv w.

(** The part written by [gen_frames] for one encoded image. *)
Definition part (frame_bytes : bytes) : bytes :=
  (b "--frame" ++ CRLF) ++
  (b "Content-Type: image/jpeg" ++ CRLF ++ CRLF) ++ frame_bytes ++ CRLF.

(** One turn of the [while True] loop of [gen_frames]; every path ends in
    [continue] or falls through to the next turn. *)
Definition gen_frames_body (w : World) : M unit :=
  frame <- get_frame w ;;
  match frame with
  | None => sleep 100
  | Some f =>
      try_except
        (r <- cv2_imencode w f ;;
         let '(ret_, buffer) := r in
         if negb ret_ then sleep 100
         else emit (Yield (part buffer)))
        (except_Exception (sleep 100))
  end.

(** [gen_frames], run for [n] turns of its loop; [ws i] is what the
    libraries answer during turn [i].  The loop has no [break] and no
    [return]: after [n] turns the generator either is still looping
    ([Ret tt]) or has raised. *)
Fixpoint gen_frames (n : nat) (ws : nat -> World) (i : nat) : M unit :=
  match n with
  | O => ret tt
  | S n' => gen_frames_body (ws i) ;; gen_frames n' ws (S i)
  end.

Definition startup_event (w : World) : M unit :=
  st <- get ;;
  if lower (CAMERA_SOURCE st) =? "libcamera" then
    ok <- init_libcamera w ;;
    if negb ok then
      ok' <- init_opencv_camera w ;;
      ret tt
    else ret tt
  else
    ok <- init_opencv_camera w ;;
    ret tt.

Definition shutdown_event : M unit :=
  st <- get ;;
  match opencv_camera st with
  | Some c => VideoCapture_release c
  | None => ret tt
  end ;;
  st <- get ;;
  match libcamera_camera st with
  | Some c => Picamera2_close c
  | None => ret tt
  end.

(** [opencv_camera is not None and opencv_camera.isOpened()]. *)
Definition opencv_available (st : State) : bool :=
  match opencv_camera st with
  | Some c => isOpened c
  | None => false
  end.

(** [libcamera_camera is not None]. *)
Definition libcamera_available (st : State) : bool :=
  match libcamera_camera st with
  | Some _ => true
  | None => false
  end.

Record Health := mkHealth {
  status : string;
  camera_source : string;
  camera_working : bool
}.

Definition health_check : M Health :=
  st <- get ;;
  let camera_working :=
    if lower (CAMERA_SOURCE st) =? "opencv" then opencv_available st
    else if lower (CAMERA_SOURCE st) =? "libcamera" then libcamera_available st
    else false in
  ret (mkHealth (if camera_working then "healthy" else "unhealthy")
                (CAMERA_SOURCE st) camera_working).

(** The two shapes of the answer of [switch_camera]. *)
Inductive SwitchResponse :=
| SwitchError (error : string)
| Switched (message : string) (success : bool) (camera_source : string).

(** The block [# Clean up current camera] of [switch_camera]. *)
Definition cleanup_current : M unit :=
  st <- get ;;
  match lower (CAMERA_SOURCE st) =? "opencv", opencv_camera st with
  | true, Some c => VideoCapture_release c
  | _, _ =>
      match lower (CAMERA_SOURCE st) =? "libcamera", libcamera_camera st with
      | true, Some c => Picamera2_close c
      | _, _ => ret tt
      end
  end.

Definition switch_camera (source : string) (w : World) : M SwitchResponse :=
  if negb (str_in (lower source) ["opencv"; "libcamera"]) then
    ret (SwitchError "Invalid camera source. Use 'opencv' or 'libcamera'")
  else
    cleanup_current ;;
    modify (set_CAMERA_SOURCE (lower source)) ;;
    st <- get ;;
    success <-
      (if CAMERA_SOURCE st =? "libcamera" then init_libcamera w
       else init_opencv_camera w) ;;
    st <- get ;;
    ret (Switched ("Switched to " ++ CAMERA_SOURCE st ++ " camera")
                  success (CAMERA_SOURCE st)).

(** ** Configuration and the remaining handlers *)

(** The module constants read from the environment when the module is
    loaded. *)
Record Config := mkConfig {
  OPENCV_DEVICE : Z;
  LIBCAMERA_DEVICE : string;
  LIBCAMERA_BUFFER_COUNT : Z;
  LIBCAMERA_FRAME_RATE : Z
}.

(** The dictionary returned by [index]. *)
Record IndexResponse := mkIndex {
  ix_message : string;
  ix_camera_source : string;
  ix_opencv_device : option Z;
  ix_libcamera_device : option string;
  ix_status : string
}.

Definition index (cfg : Config) : M IndexResponse :=
  st <- get ;;
  ret (mkIndex "Camera streaming server is running."
         (CAMERA_SOURCE st)
         (if lower (CAMERA_SOURCE st) =? "opencv"
          then Some (OPENCV_DEVICE cfg) else None)
         (if lower (CAMERA_SOURCE st) =? "libcamera"
          then Some (LIBCAMERA_DEVICE cfg) else None)
         (if (opencv_available st || libcamera_available st)%bool
          then "healthy" else "unhealthy")).

(** The dictionary returned by [camera_info]. *)
Record CameraInfo := mkCameraInfo {
  ci_camera_source : string;
  ci_opencv_device : Z;
  ci_libcamera_device : string;
  ci_libcamera_buffer_count : Z;
  ci_libcamera_frame_rate : Z;
  ci_opencv_available : bool;
  ci_libcamera_available : bool
}.

Definition camera_info (cfg : Config) : M CameraInfo :=
  st <- get ;;
  ret (mkCameraInfo (CAMERA_SOURCE st) (OPENCV_DEVICE cfg)
         (LIBCAMERA_DEVICE cfg) (LIBCAMERA_BUFFER_COUNT cfg)
         (LIBCAMERA_FRAME_RATE cfg)
         (opencv_available st) (libcamera_available st)).

(** The two shapes of the answer of [test_frame]: the dictionary
    [{"success": False, "error": ...}] and the image [Response]. *)
Inductive TestResponse :=
| TestFailure (error : string)
| TestImage (content : bytes) (media_type : string).

(** [test_frame]; [describe e] is the text of exception [e], as the
    f-string renders it. *)
Definition test_frame (describe : exn -> string) (w : World)
    : M TestResponse :=
  frame <- get_frame w ;;
  match frame with
  | None => ret (TestFailure "Failed to capture frame")
  | Some f =>
      try_except
        (r <- cv2_imencode w f ;;
         let '(ret_, buffer) := r in
         if negb ret_ then ret (TestFailure "Failed to encode frame")
         else ret (TestImage buffer "image/jpeg"))
        (fun e =>
           Some (ret (TestFailure ("Error processing frame: " ++ describe e))))
  end.

(** ** Vocabulary of the specification *)

(** The two backend kinds: direct-device and tuned-sensor. *)
Inductive Kind := Opencv | Libcamera.

Definition kind_name (k : Kind) : string :=
  match k with
  | Opencv => "opencv"
  | Libcamera => "libcamera"
  end.

(** The kind [get_frame] reads from under the current label. *)
Definition selected_kind (st : State) : Kind :=
  if lower (CAMERA_SOURCE st) =? "libcamera" then Libcamera else Opencv.

(** The Active Backend Reference, as the module itself sees it.  It is
    empty ([Uninitialized]) when the module's own test for the selected kind
    finds no backend: [opencv_camera is not None and opencv_camera.isOpened()]
    for the direct device, [libcamera_camera is not None] for the tuned
    sensor.  It is [Active] when the recorded handle is open.  It is [Closed]
    when an object is still recorded and passes that test although it is not
    open: a tuned-sensor object that has been closed or never started, which
    the health check reports as working and [get_frame] still reads. *)
Inductive BackendRef :=
| Uninitialized
| Active (k : Kind) (h : nat)
| Closed (k : Kind) (h : nat).

Definition active_backend (st : State) : BackendRef :=
  match selected_kind st with
  | Opencv =>
      match opencv_camera st with
      | Some c => if isOpened c then Active Opencv (vc_id c) else Uninitialized
      | None => Uninitialized
      end
  | Libcamera =>
      match libcamera_camera st with
      | Some c =>
          if pc_started c then Active Libcamera (pc_id c)
          else Closed Libcamera (pc_id c)
      | None => Uninitialized
      end
  end.

Definition other (k : Kind) : Kind :=
  match k with
  | Opencv => Libcamera
  | Libcamera => Opencv
  end.

(** The global of kind [k] refers to no open handle. *)
Definition not_open (k : Kind) (st : State) : Prop :=
  match k with
  | Opencv =>
      match opencv_camera st with
      | Some c => vc_opened c = false
      | None => True
      end
  | Libcamera =>
      match libcamera_camera st with
      | Some c => pc_started c = false
      | None => True
      end
  end.

(** The label names one of the two kinds, and a handle of the other kind
    is not open. *)
Definition label_names (k : Kind) (st : State) : Prop :=
  lower (CAMERA_SOURCE st) = kind_name k /\ not_open (other k) st.

(** The identity of the object the global of kind [k] refers to. *)
Definition recorded (k : Kind) (st : State) : option nat :=
  match k with
  | Opencv => option_map vc_id (opencv_camera st)
  | Libcamera => option_map pc_id (libcamera_camera st)
  end.

(** The library call that closes, respectively reads, handle [h] of kind [k]. *)
Definition close_of (k : Kind) (h : nat) : Event :=
  match k with
  | Opencv => VC_release h
  | Libcamera => PC_close h
  end.

Definition read_of (k : Kind) (h : nat) : Event :=
  match k with
  | Opencv => VC_read h
  | Libcamera => PC_capture_array h
  end.

(** The first statement of an open attempt on kind [k]. *)
Definition open_attempt (k : Kind) : Event :=
  match k with
  | Opencv => VideoCapture_call
  | Libcamera => Picamera2_import
  end.

(** The open of kind [k]. *)
Definition open_kind (k : Kind) (w : World) : M bool :=
  match k with
  | Opencv => init_opencv_camera w
  | Libcamera => init_libcamera w
  end.

(** The open of kind [k] goes through in world [w]. *)
Definition open_succeeds (k : Kind) (w : World) : Prop :=
  match k with
  | Opencv => w_VideoCapture w = VCObj true
  | Libcamera => w_Picamera2 w = PCStarted
  end.

(** The chunks yielded along a trace. *)
Fixpoint yields (t : list Event) : list bytes :=
  match t with
  | [] => []
  | Yield c :: r => c :: yields r
  | _ :: r => yields r
  end.

(** The delays slept along a trace. *)
Fixpoint sleeps (t : list Event) : list nat :=
  match t with
  | [] => []
  | Sleep ms :: r => ms :: sleeps r
  | _ :: r => sleeps r
  end.

Fixpoint is_prefix (p l : bytes) : bool :=
  match p, l with
  | [], _ => true
  | x :: p', y :: l' => Byte.eqb x y && is_prefix p' l'
  | _ :: _, [] => false
  end.

(** [p in l] on bytes. *)
Fixpoint is_infix (p l : bytes) : bool :=
  is_prefix p l ||
  match l with
  | [] => false
  | _ :: l' => is_infix p l'
  end.

(** A pixel [q] is pixel [p] with its colour channels in reverse order. *)
Definition rgb_to_bgr (p q : Pixel) : Prop :=
  exists r g bl rest,
    p = r :: g :: bl :: rest /\ (List.length rest <= 1)%nat /\ q = [bl; g; r].

(** ** Sample worlds and states *)

(** The tuned sensor delivers a 2x2 RGB array. *)
Definition world_rgb : World :=
  mkWorld VCRaise PCStarted VRFail
    (CAArray [[[200; 100; 50]; [1; 2; 3]]; [[9; 8; 7]; [0; 0; 255]]]%N)
    EncRaise.

(** The direct device delivers a frame and the encoder a JPEG buffer. *)
Definition world_jpeg : World :=
  mkWorld VCRaise PCStarted (VROk [[[1; 2; 3]]]%N) CANone
    (EncRet true [xff; xd8; xff; xd9]).

(** Both devices open, neither delivers a frame. *)
Definition world_no_frame : World :=
  mkWorld (VCObj true) PCStarted VRFail CANone (EncRet true [xff]).

(** The support library is missing; the direct device opens and delivers. *)
Definition world_fallback : World :=
  mkWorld (VCObj true) PCImportError (VROk [[[10; 20; 30]]]%N) CANone
    (EncRet true [xff; xd8]).

(** The direct device is not ready and the tuned sensor fails to start. *)
Definition world_not_ready : World :=
  mkWorld (VCObj false) PCStartError (VROk [[[10; 20; 30]]]%N)
    (CAArray [[[10; 20; 30]]]%N) (EncRet true [xff; xd8]).


(** The direct device is opened but its read raises. *)
Definition world_read_raises : World :=
  mkWorld (VCObj true) PCStarted VRRaise CANone (EncRet true [xff; xd8]).

(** The worlds of a short stream: a frame, a failed read, a read that
    raises. *)
Definition worlds_then_raise (i : nat) : World :=
  match i with
  | 0 => world_jpeg
  | 1 => world_no_frame
  | _ => world_read_raises
  end.

(** ** Basic facts *)

Lemma get_frame_opencv_state w st :
  state_of (get_frame_opencv w st) = st.
Proof.
  unfold get_frame_opencv, bind, get, state_of; simpl.
  destruct (opencv_camera st) as [c|]; simpl; [|reflexivity].
  unfold VideoCapture_read, bind, emit; simpl.
  destruct (vc_opened c); simpl; [|reflexivity].
  destruct (w_read w); reflexivity.
Qed.

Lemma get_frame_libcamera_state w st :
  state_of (get_frame_libcamera w st) = st.
Proof.
  unfold get_frame_libcamera, bind, get, state_of; simpl.
  destruct (libcamera_camera st) as [c|]; simpl; [|reflexivity].
  unfold try_except, Picamera2_capture_array, bind, emit; simpl.
  destruct (w_capture_array w) as [| |f]; simpl; try reflexivity.
  destruct (size f =? 0)%nat; simpl; [reflexivity|].
  unfold cv2_cvtColor_RGB2BGR.
  destruct (COLOR_RGB2BGR f); reflexivity.
Qed.

Lemma get_frame_state w st : state_of (get_frame w st) = st.
Proof.
  unfold get_frame, bind, get, state_of; simpl.
  destruct (lower (CAMERA_SOURCE st) =? "libcamera").
  - pose proof (get_frame_libcamera_state w st) as H.
    unfold state_of in H.
    destruct (get_frame_libcamera w st) as [[r s] t]; simpl in *; assumption.
  - pose proof (get_frame_opencv_state w st) as H.
    unfold state_of in H.
    destruct (get_frame_opencv w st) as [[r s] t]; simpl in *; assumption.
Qed.

(** What [get_frame] does to the devices: nothing, or one read of the
    handle the global of the selected kind refers to. *)
Lemma get_frame_trace w st :
  trace (get_frame w st) =
  match selected_kind st with
  | Opencv =>
      match opencv_camera st with
      | Some c => [VC_read (vc_id c)]
      | None => []
      end
  | Libcamera =>
      match libcamera_camera st with
      | Some c => [PC_capture_array (pc_id c)]
      | None => []
      end
  end.
Proof.
  unfold get_frame, selected_kind, bind, get, trace; simpl.
  destruct (lower (CAMERA_SOURCE st) =? "libcamera").
  - unfold get_frame_libcamera, bind, get; simpl.
    destruct (libcamera_camera st) as [c|]; simpl; [|reflexivity].
    unfold try_except, Picamera2_capture_array, bind, emit; simpl.
    destruct (w_capture_array w) as [| |f]; simpl; try reflexivity.
    destruct (size f =? 0)%nat; simpl; [reflexivity|].
    unfold cv2_cvtColor_RGB2BGR.
    destruct (COLOR_RGB2BGR f); reflexivity.
  - unfold get_frame_opencv, bind, get; simpl.
    destruct (opencv_camera st) as [c|]; simpl; [|reflexivity].
    unfold VideoCapture_read, bind, emit; simpl.
    destruct (vc_opened c); simpl; [|reflexivity].
    destruct (w_read w); reflexivity.
Qed.

Lemma get_frame_no_yield w st : yields (trace (get_frame w st)) = [].
Proof.
  rewrite get_frame_trace.
  destruct (selected_kind st);
    [destruct (opencv_camera st)|destruct (libcamera_camera st)]; reflexivity.
Qed.

Lemma get_frame_no_sleep w st : sleeps (trace (get_frame w st)) = [].
Proof.
  rewrite get_frame_trace.
  destruct (selected_kind st);
    [destruct (opencv_camera st)|destruct (libcamera_camera st)]; reflexivity.
Qed.

Lemma yields_app t1 t2 : yields (t1 ++ t2) = yields t1 ++ yields t2.
Proof.
  induction t1 as [|e t1 IH]; simpl; [reflexivity|].
  destruct e; simpl; rewrite ?IH; reflexivity.
Qed.

Lemma sleeps_app t1 t2 : sleeps (t1 ++ t2) = sleeps t1 ++ sleeps t2.
Proof.
  induction t1 as [|e t1 IH]; simpl; [reflexivity|].
  destruct e; simpl; rewrite ?IH; reflexivity.
Qed.

(** A triple is determined by its three components. *)
Lemma run_eq {A} (x : outcome A * State * list Event) :
  x = (result x, state_of x, trace x).
Proof. destruct x as [[r s] t]; reflexivity. Qed.

Lemma bind_run {A B} (m : M A) (k : A -> M B) st a st1 t1 :
  m st = (Ret a, st1, t1) ->
  bind m k st =
    (result (k a st1), state_of (k a st1), t1 ++ trace (k a st1)).
Proof.
  intros H; unfold bind; rewrite H.
  destruct (k a st1) as [[r s] t]; reflexivity.
Qed.

(** ** Channel reordering *)

Lemma swap_rb_spec p q : swap_rb p = Some q -> rgb_to_bgr p q.
Proof.
  unfold swap_rb, rgb_to_bgr.
  destruct p as [|r [|g [|bl [|x [|y rest]]]]]; try discriminate;
    intros H; injection H as <-.
  - exists r, g, bl, []; simpl; auto.
  - exists r, g, bl, [x]; simpl; auto.
Qed.

Lemma map_opt_Forall2 {A B} (f : A -> option B) (R : A -> B -> Prop) :
  (forall x y, f x = Some y -> R x y) ->
  forall l l', map_opt f l = Some l' -> Forall2 R l l'.
Proof.
  intros Hf; induction l as [|x l IH]; simpl; intros l' H.
  - injection H as <-; constructor.
  - destruct (f x) as [y|] eqn:Hx; [|discriminate].
    destruct (map_opt f l) as [r|]; [|discriminate].
    injection H as <-; constructor; auto.
Qed.

Lemma COLOR_RGB2BGR_spec f g :
  COLOR_RGB2BGR f = Some g -> Forall2 (Forall2 rgb_to_bgr) f g.
Proof.
  apply map_opt_Forall2; intros row row'.
  apply map_opt_Forall2, swap_rb_spec.
Qed.

Lemma map_opt_total {A B} (f : A -> option B) (g : A -> B) (P : A -> Prop) :
  (forall x, P x -> f x = Some (g x)) ->
  forall l, Forall P l -> map_opt f l = Some (map g l).
Proof.
  intros Hf; induction 1 as [|x l Hx Hl IH]; simpl; [reflexivity|].
  rewrite (Hf x Hx), IH; reflexivity.
Qed.

Lemma COLOR_RGB2BGR_three f :
  Forall (Forall (fun p : Pixel => List.length p = 3)) f ->
  COLOR_RGB2BGR f = Some (map (map (@rev N)) f).
Proof.
  apply map_opt_total; intros row.
  apply map_opt_total; intros p Hp.
  destruct p as [|r [|g [|bl [|x rest]]]]; try discriminate; reflexivity.
Qed.

(** C9. Reading the tuned-sensor backend never raises and leaves the
    globals alone.  A read that returns a frame returns the captured,
    non-empty array with the colour channels of every pixel reversed (RGB in,
    BGR out); in particular a non-empty array of three-channel pixels is
    returned with every pixel reversed.  No data, a zero-sized array, or an
    exception from the library, give "no frame". *)
Theorem get_frame_libcamera_reorders w st :
  exists r t,
    get_frame_libcamera w st = (Ret r, st, t) /\
    (forall g, r = Some g ->
       exists f, w_capture_array w = CAArray f /\ size f <> 0 /\
                 Forall2 (Forall2 rgb_to_bgr) f g) /\
    (forall f, libcamera_camera st <> None ->
       w_capture_array w = CAArray f -> size f <> 0 ->
       Forall (Forall (fun p : Pixel => List.length p = 3)) f ->
       r = Some (map (map (@rev N)) f)) /\
    (w_capture_array w = CANone -> r = None) /\
    (forall f, w_capture_array w = CAArray f -> size f = 0 -> r = None) /\
    (w_capture_array w = CARaise -> r = None).
Proof.
  unfold get_frame_libcamera, bind, get; simpl.
  destruct (libcamera_camera st) as [c|] eqn:Hc; simpl.
  2:{ exists None, []; repeat split; try discriminate; try reflexivity.
      intros f H; contradiction. }
  unfold try_except, Picamera2_capture_array, bind, emit; simpl.
  destruct (w_capture_array w) as [| |f] eqn:Hw; simpl.
  - eexists _, _; split; [reflexivity|].
    repeat split; intros; try discriminate; reflexivity.
  - eexists _, _; split; [reflexivity|].
    repeat split; intros; try discriminate; reflexivity.
  - destruct (size f =? 0)%nat eqn:Hs; simpl.
    + apply Nat.eqb_eq in Hs.
      eexists _, _; split; [reflexivity|].
      repeat split; intros; try discriminate; try reflexivity.
      match goal with H : CAArray _ = CAArray _ |- _ => injection H as <- end.
      contradiction.
    + apply Nat.eqb_neq in Hs.
      unfold cv2_cvtColor_RGB2BGR.
      destruct (COLOR_RGB2BGR f) as [g|] eqn:Hg; simpl.
      * eexists _, _; split; [reflexivity|].
        repeat split; intros; try discriminate.
        -- match goal with H : Some _ = Some _ |- _ => injection H as <- end.
           exists f; auto using COLOR_RGB2BGR_spec.
        -- match goal with H : CAArray _ = CAArray _ |- _ => injection H as <- end.
           rewrite COLOR_RGB2BGR_three in Hg by assumption.
           symmetry; assumption.
        -- match goal with H : CAArray _ = CAArray _ |- _ => injection H as <- end.
           contradiction.
      * eexists _, _; split; [reflexivity|].
        repeat split; intros; try discriminate; try reflexivity.
        match goal with H : CAArray _ = CAArray _ |- _ => injection H as <- end.
        rewrite COLOR_RGB2BGR_three in Hg by assumption; discriminate.
Qed.

Lemma get_frame_libcamera_reorders_witness :
  result (get_frame_libcamera world_rgb
            (mkState "libcamera" None (Some (mkPC 0 true)) 1)) =
  Ret (Some [[[50; 100; 200]; [3; 2; 1]]; [[7; 8; 9]; [255; 0; 0]]]%N).
Proof.
  destruct (get_frame_libcamera_reorders world_rgb
              (mkState "libcamera" None (Some (mkPC 0 true)) 1))
    as (r & t & Hrun & _ & Hok & _).
  rewrite Hrun; unfold result; simpl; f_equal.
  apply (Hok [[[200; 100; 50]; [1; 2; 3]]; [[9; 8; 7]; [0; 0; 255]]]%N).
  - simpl; discriminate.
  - reflexivity.
  - simpl; discriminate.
  - repeat constructor.
Defined.

(** ** The stream generator *)

(** C7. A turn of the generator in which [get_frame] returns a frame and
    [imencode] succeeds with a non-empty buffer yields exactly one chunk:
    [--frame] CRLF, [Content-Type: image/jpeg] CRLF CRLF, the buffer, CRLF.
    The framing around the buffer holds no [Content-Length], and the turn
    neither sleeps nor raises. *)
Theorem gen_frames_body_yields_part w st f buffer :
  result (get_frame w st) = Ret (Some f) ->
  w_imencode w = EncRet true buffer ->
  buffer <> [] ->
  exists t,
    gen_frames_body w st = (Ret tt, st, t) /\
    yields t =
      [b "--frame" ++ [x0d; x0a] ++
       b "Content-Type: image/jpeg" ++ [x0d; x0a] ++ [x0d; x0a] ++
       buffer ++ [x0d; x0a]] /\
    sleeps t = [] /\
    is_infix (b "Content-Length")
      (b "--frame" ++ [x0d; x0a] ++
       b "Content-Type: image/jpeg" ++ [x0d; x0a] ++ [x0d; x0a] ++
       [x0d; x0a]) = false /\
    List.length (b "--frame" ++ [x0d; x0a] ++
       b "Content-Type: image/jpeg" ++ [x0d; x0a] ++ [x0d; x0a] ++
       [x0d; x0a]) <
    List.length (b "--frame" ++ [x0d; x0a] ++
       b "Content-Type: image/jpeg" ++ [x0d; x0a] ++ [x0d; x0a] ++
       buffer ++ [x0d; x0a]).
Proof.
  intros Hget Henc Hbuf.
  exists (trace (get_frame w st) ++ [Yield (part buffer)]).
  split; [|split; [|split; [|split]]].
  - unfold gen_frames_body, bind.
    rewrite (run_eq (get_frame w st)), Hget, get_frame_state.
    unfold try_except, cv2_imencode, bind; rewrite Henc; reflexivity.
  - rewrite yields_app, get_frame_no_yield; reflexivity.
  - rewrite sleeps_app, get_frame_no_sleep; reflexivity.
  - vm_compute; reflexivity.
  - destruct buffer as [|x buffer]; [congruence|].
    simpl; rewrite !length_app; simpl; lia.
Qed.

Lemma gen_frames_body_yields_part_witness :
  exists t,
    gen_frames_body world_jpeg (mkState "opencv" (Some (mkVC 0 true)) None 1) =
      (Ret tt, mkState "opencv" (Some (mkVC 0 true)) None 1, t) /\
    yields t =
      [b "--frame" ++ [x0d; x0a] ++
       b "Content-Type: image/jpeg" ++ [x0d; x0a] ++ [x0d; x0a] ++
       [xff; xd8; xff; xd9] ++ [x0d; x0a]].
Proof.
  destruct (gen_frames_body_yields_part world_jpeg
              (mkState "opencv" (Some (mkVC 0 true)) None 1)
              [[[1; 2; 3]]]%N [xff; xd8; xff; xd9])
    as (t & Hrun & Hy & _).
  - reflexivity.
  - reflexivity.
  - discriminate.
  - exists t; split; assumption.
Defined.

Section ReadAlwaysFails.

Variable ws : nat -> World.
Variable st : State.

(** What the turns in [l] leave in the trace when each reads nothing. *)
Let failed_turns (l : list nat) : list Event :=
  flat_map (fun j => trace (get_frame (ws j) st) ++ [Sleep 100]) l.

Lemma gen_frames_fail_from N : forall i,
  (forall j, i <= j < i + N -> result (get_frame (ws j) st) = Ret None) ->
  gen_frames N ws i st = (Ret tt, st, failed_turns (seq i N)).
Proof.
  induction N as [|N IH]; intros i Hfail; simpl; [reflexivity|].
  assert (Hbody : gen_frames_body (ws i) st =
                  (Ret tt, st, trace (get_frame (ws i) st) ++ [Sleep 100])).
  { unfold gen_frames_body, bind.
    rewrite (run_eq (get_frame (ws i) st)), Hfail, get_frame_state by lia.
    reflexivity. }
  rewrite (bind_run _ _ _ _ _ _ Hbody), IH; [reflexivity|].
  intros j Hj; apply Hfail; lia.
Qed.

Lemma failed_turns_yields l : yields (failed_turns l) = [].
Proof.
  induction l as [|j l IH]; simpl; [reflexivity|].
  rewrite !yields_app, get_frame_no_yield, IH; reflexivity.
Qed.

Lemma failed_turns_sleeps l :
  sleeps (failed_turns l) = repeat 100 (List.length l).
Proof.
  induction l as [|j l IH]; simpl; [reflexivity|].
  rewrite !sleeps_app, get_frame_no_sleep, IH; reflexivity.
Qed.

End ReadAlwaysFails.

(** C6. When every [get_frame] of the first [N] turns returns no frame, the
    generator is still looping after these [N] turns, whatever [N] is: it has
    not raised, it has yielded nothing, and it has slept the same fixed
    delay once per turn, after the read attempt of that turn. *)
Theorem gen_frames_read_always_fails N ws st :
  (forall j, j < N -> result (get_frame (ws j) st) = Ret None) ->
  exists t,
    gen_frames N ws 0 st = (Ret tt, st, t) /\
    yields t = [] /\
    sleeps t = repeat 100 N /\
    t = flat_map (fun j => trace (get_frame (ws j) st) ++ [Sleep 100])
                 (seq 0 N).
Proof.
  intros Hfail.
  eexists; split; [apply gen_frames_fail_from; intros j Hj; apply Hfail; lia|].
  split; [apply failed_turns_yields|].
  split; [|reflexivity].
  rewrite failed_turns_sleeps, length_seq; reflexivity.
Qed.

Lemma gen_frames_read_always_fails_witness :
  gen_frames 3 (fun _ => world_no_frame) 0
    (mkState "opencv" (Some (mkVC 0 true)) None 1) =
  (Ret tt, mkState "opencv" (Some (mkVC 0 true)) None 1,
   [VC_read 0; Sleep 100; VC_read 0; Sleep 100; VC_read 0; Sleep 100]).
Proof.
  destruct (gen_frames_read_always_fails 3 (fun _ => world_no_frame)
              (mkState "opencv" (Some (mkVC 0 true)) None 1))
    as (t & Hrun & _ & _ & Ht).
  - intros j _; reflexivity.
  - rewrite Hrun, Ht; reflexivity.
Defined.

(** ** Switching *)

(** C5. A requested source that is, once lower-cased as the handler does,
    neither ["opencv"] nor ["libcamera"] gets the error answer; the label,
    both handles and every device are left as they were. *)
Theorem switch_camera_invalid source w st :
  str_in (lower source) ["opencv"; "libcamera"] = false ->
  switch_camera source w st =
    (Ret (SwitchError "Invalid camera source. Use 'opencv' or 'libcamera'"),
     st, []).
Proof.
  intros H; unfold switch_camera; rewrite H; reflexivity.
Qed.

Lemma switch_camera_invalid_witness :
  switch_camera "invalid" world_no_frame
    (mkState "libcamera" (Some (mkVC 0 false)) (Some (mkPC 1 true)) 2) =
  (Ret (SwitchError "Invalid camera source. Use 'opencv' or 'libcamera'"),
   mkState "libcamera" (Some (mkVC 0 false)) (Some (mkPC 1 true)) 2, []).
Proof.
  apply (switch_camera_invalid "invalid"); reflexivity.
Defined.

Ltac unfold_py :=
  unfold switch_camera, cleanup_current, startup_event, shutdown_event,
    health_check,
    init_opencv_camera, init_libcamera, cv2_VideoCapture, import_picamera2,
    Picamera2_new, Picamera2_configure, Picamera2_start,
    VideoCapture_release, Picamera2_close, sleep, except_Exception,
    try_except, bind, get, modify, emit, ret, raise.

Lemma init_opencv_camera_run w st :
  init_opencv_camera w st =
  match w_VideoCapture w with
  | VCRaise => (Ret false, st, [VideoCapture_call])
  | VCObj o =>
      (Ret o,
       mkState (CAMERA_SOURCE st) (Some (mkVC (next_obj st) o))
               (libcamera_camera st) (S (next_obj st)),
       [VideoCapture_call])
  end.
Proof.
  unfold_py; simpl.
  destruct (w_VideoCapture w) as [|[|]]; reflexivity.
Qed.

Lemma init_libcamera_run w st :
  init_libcamera w st =
  let h := next_obj st in
  let assigned started :=
    mkState (CAMERA_SOURCE st) (opencv_camera st) (Some (mkPC h started))
            (S h) in
  match w_Picamera2 w with
  | PCImportError => (Ret false, st, [Picamera2_import])
  | PCCtorError => (Ret false, st, [Picamera2_import; Picamera2_call])
  | PCConfigError =>
      (Ret false, assigned false,
       [Picamera2_import; Picamera2_call; PC_configure h])
  | PCStartError =>
      (Ret false, assigned false,
       [Picamera2_import; Picamera2_call; PC_configure h; PC_start h])
  | PCStarted =>
      (Ret true, assigned true,
       [Picamera2_import; Picamera2_call; PC_configure h; PC_start h;
        Sleep 2000])
  end.
Proof.
  unfold_py; simpl.
  destruct (w_Picamera2 w); reflexivity.
Qed.

(** The open attempt made by [switch_camera] and [startup_event] for kind
    [k]. *)
Lemma open_succeeds_dec k w : {open_succeeds k w} + {~ open_succeeds k w}.
Proof.
  destruct k; simpl.
  - destruct (w_VideoCapture w) as [|[|]]; (left; reflexivity) || (right; discriminate).
  - destruct (w_Picamera2 w); (left; reflexivity) || (right; discriminate).
Qed.

Lemma lower_source_accepted source k :
  lower source = kind_name k ->
  str_in (lower source) ["opencv"; "libcamera"] = true.
Proof. intros ->; destruct k; reflexivity. Qed.

Lemma cleanup_current_run st :
  cleanup_current st =
  match lower (CAMERA_SOURCE st) =? "opencv", opencv_camera st with
  | true, Some c =>
      (Ret tt, set_opencv_camera (Some (mkVC (vc_id c) false)) st,
       [VC_release (vc_id c)])
  | _, _ =>
      match lower (CAMERA_SOURCE st) =? "libcamera", libcamera_camera st with
      | true, Some c =>
          (Ret tt, set_libcamera_camera (Some (mkPC (pc_id c) false)) st,
           [PC_close (pc_id c)])
      | _, _ => (Ret tt, st, [])
      end
  end.
Proof.
  unfold cleanup_current, bind, get.
  destruct (lower (CAMERA_SOURCE st) =? "opencv"),
    (lower (CAMERA_SOURCE st) =? "libcamera"),
    (opencv_camera st), (libcamera_camera st); reflexivity.
Qed.

Lemma cleanup_current_ret st : result (cleanup_current st) = Ret tt.
Proof.
  rewrite cleanup_current_run.
  destruct (lower (CAMERA_SOURCE st) =? "opencv"),
    (lower (CAMERA_SOURCE st) =? "libcamera"),
    (opencv_camera st), (libcamera_camera st); reflexivity.
Qed.

Lemma cleanup_current_next_obj st :
  next_obj (state_of (cleanup_current st)) = next_obj st.
Proof.
  rewrite cleanup_current_run.
  destruct (lower (CAMERA_SOURCE st) =? "opencv"),
    (lower (CAMERA_SOURCE st) =? "libcamera"),
    (opencv_camera st), (libcamera_camera st); reflexivity.
Qed.

Lemma open_kind_ret k w st : exists s, result (open_kind k w st) = Ret s.
Proof.
  destruct k; simpl.
  - rewrite init_opencv_camera_run.
    destruct (w_VideoCapture w); eexists; reflexivity.
  - rewrite init_libcamera_run.
    destruct (w_Picamera2 w); eexists; reflexivity.
Qed.

Lemma open_kind_label k w st :
  CAMERA_SOURCE (state_of (open_kind k w st)) = CAMERA_SOURCE st.
Proof.
  destruct k; simpl.
  - rewrite init_opencv_camera_run.
    destruct (w_VideoCapture w); reflexivity.
  - rewrite init_libcamera_run.
    destruct (w_Picamera2 w); reflexivity.
Qed.

(** An accepted switch, step by step: clean up, relabel, open, answer. *)
Lemma switch_camera_run source k w st :
  lower source = kind_name k ->
  let c := cleanup_current st in
  let o := open_kind k w (set_CAMERA_SOURCE (kind_name k) (state_of c)) in
  exists success,
    result o = Ret success /\
    switch_camera source w st =
      (Ret (Switched ("Switched to " ++ kind_name k ++ " camera") success
                     (kind_name k)),
       state_of o, trace c ++ trace o).
Proof.
  intros Hsrc c o.
  destruct (open_kind_ret k w (set_CAMERA_SOURCE (kind_name k) (state_of c)))
    as [success Hs].
  exists success; split; [exact Hs|].
  pose proof (open_kind_label k w
                (set_CAMERA_SOURCE (kind_name k) (state_of c))) as Hl.
  fold o in Hs, Hl.
  pose proof (cleanup_current_ret st) as Hc; fold c in Hc.
  unfold switch_camera.
  rewrite (lower_source_accepted _ _ Hsrc), Hsrc; cbn [negb].
  rewrite (bind_run _ _ st tt (state_of c) (trace c))
    by (rewrite <- Hc; apply run_eq).
  rewrite (bind_run _ _ (state_of c) tt
             (set_CAMERA_SOURCE (kind_name k) (state_of c)) [])
    by reflexivity.
  rewrite (bind_run _ _ _ (set_CAMERA_SOURCE (kind_name k) (state_of c))
             (set_CAMERA_SOURCE (kind_name k) (state_of c)) [])
    by reflexivity.
  assert (Hopen :
    (if CAMERA_SOURCE (set_CAMERA_SOURCE (kind_name k) (state_of c))
          =? "libcamera"
     then init_libcamera w else init_opencv_camera w) = open_kind k w).
  { destruct k; reflexivity. }
  rewrite Hopen.
  rewrite (bind_run _ _ _ success (state_of o) (trace o))
    by (rewrite <- Hs; apply run_eq).
  rewrite (bind_run _ _ _ (state_of o) (state_of o) []) by reflexivity.
  cbv beta; simpl in Hl; rewrite Hl.
  unfold ret, result, state_of, trace; cbn [fst snd app].
  rewrite app_nil_r; reflexivity.
Qed.




Lemma cleanup_current_labelled k0 st :
  lower (CAMERA_SOURCE st) = kind_name k0 ->
  trace (cleanup_current st) =
    match recorded k0 st with
    | Some h => [close_of k0 h]
    | None => []
    end /\
  not_open k0 (state_of (cleanup_current st)) /\
  (not_open (other k0) st -> not_open (other k0) (state_of (cleanup_current st))).
Proof.
  intros Hlab; rewrite cleanup_current_run, Hlab.
  destruct st as [lab [[io oo]|] [[il sl]|] n];
    destruct k0; unfold state_of, trace; simpl; auto.
Qed.

Lemma set_CAMERA_SOURCE_not_open k s st :
  not_open k st -> not_open k (set_CAMERA_SOURCE s st).
Proof. destruct k; exact (fun H => H). Qed.

Lemma open_kind_trace k w st :
  exists t, trace (open_kind k w st) = open_attempt k :: t.
Proof.
  destruct k; simpl.
  - rewrite init_opencv_camera_run.
    destruct (w_VideoCapture w); eexists; reflexivity.
  - rewrite init_libcamera_run.
    destruct (w_Picamera2 w); eexists; reflexivity.
Qed.

Lemma open_kind_success k w st :
  CAMERA_SOURCE st = kind_name k ->
  open_succeeds k w ->
  result (open_kind k w st) = Ret true /\
  active_backend (state_of (open_kind k w st)) = Active k (next_obj st) /\
  recorded k (state_of (open_kind k w st)) = Some (next_obj st) /\
  next_obj (state_of (open_kind k w st)) = S (next_obj st).
Proof.
  intros Hlab Hw.
  destruct st as [lab oc lc n]; simpl in Hlab; subst lab.
  destruct k; simpl in Hw |- *.
  - rewrite init_opencv_camera_run, Hw; repeat split; reflexivity.
  - rewrite init_libcamera_run, Hw; repeat split; reflexivity.
Qed.

Lemma health_check_active k h st :
  CAMERA_SOURCE st = kind_name k ->
  active_backend st = Active k h ->
  result (health_check st) = Ret (mkHealth "healthy" (kind_name k) true).
Proof.
  destruct st as [lab oc lc n]; simpl; intros ->.
  unfold active_backend, selected_kind, health_check, bind, get, ret, result,
    opencv_available, libcamera_available, isOpened.
  destruct k; simpl.
  - destruct oc as [[io [|]]|]; simpl; try discriminate; reflexivity.
  - destruct lc as [[il [|]]|]; simpl; try discriminate; reflexivity.
Qed.

Lemma lower_kind_name k : lower (kind_name k) = kind_name k.
Proof. destruct k; reflexivity. Qed.






(** C8. Two switches in a row to the same kind, both opens succeeding, from
    any state: after each the Active Backend Reference is [Active] of that
    kind, the label, the answer of the handler and the health report are the
    same, while the second call closes the handle opened by the first and
    opens a new one. *)
Theorem switch_camera_twice source k w1 w2 st :
  lower source = kind_name k ->
  open_succeeds k w1 ->
  open_succeeds k w2 ->
  let r1 := switch_camera source w1 st in
  let r2 := switch_camera source w2 (state_of r1) in
  active_backend (state_of r1) = Active k (next_obj st) /\
  active_backend (state_of r2) = Active k (S (next_obj st)) /\
  CAMERA_SOURCE (state_of r1) = kind_name k /\
  CAMERA_SOURCE (state_of r2) = kind_name k /\
  result r1 =
    Ret (Switched ("Switched to " ++ kind_name k ++ " camera") true
                  (kind_name k)) /\
  result r2 = result r1 /\
  result (health_check (state_of r1)) =
    Ret (mkHealth "healthy" (kind_name k) true) /\
  result (health_check (state_of r2)) = result (health_check (state_of r1)) /\
  exists t,
    trace r2 = close_of k (next_obj st) :: open_attempt k :: t.
Proof.
  intros Hsrc H1 H2 r1 r2.
  (* first call *)
  destruct (switch_camera_run source k w1 st Hsrc) as (s1 & Hs1 & Hrun1).
  cbv zeta in Hs1, Hrun1.
  set (st1 := set_CAMERA_SOURCE (kind_name k)
                (state_of (cleanup_current st))) in *.
  destruct (open_kind_success k w1 st1 eq_refl H1) as (Hr1 & Ha1 & Hrec1 & Hn1).
  rewrite Hr1 in Hs1; injection Hs1 as <-.
  assert (Hnst1 : next_obj st1 = next_obj st)
    by apply cleanup_current_next_obj.
  rewrite Hnst1 in Ha1, Hrec1, Hn1.
  set (sa := state_of (open_kind k w1 st1)) in *.
  assert (Hsa : state_of r1 = sa) by (unfold r1; rewrite Hrun1; reflexivity).
  assert (Hla : CAMERA_SOURCE sa = kind_name k) by apply open_kind_label.
  (* second call *)
  destruct (switch_camera_run source k w2 sa Hsrc) as (s2 & Hs2 & Hrun2).
  cbv zeta in Hs2, Hrun2.
  assert (Hlow : lower (CAMERA_SOURCE sa) = kind_name k)
    by (rewrite Hla; apply lower_kind_name).
  destruct (cleanup_current_labelled k sa Hlow) as (Htc & _ & _).
  rewrite Hrec1 in Htc.
  set (st2 := set_CAMERA_SOURCE (kind_name k)
                (state_of (cleanup_current sa))) in *.
  destruct (open_kind_success k w2 st2 eq_refl H2) as (Hr2 & Ha2 & _ & _).
  rewrite Hr2 in Hs2; injection Hs2 as <-.
  assert (Hnst2 : next_obj st2 = S (next_obj st)).
  { unfold st2; simpl; rewrite cleanup_current_next_obj; exact Hn1. }
  rewrite Hnst2 in Ha2.
  set (sb := state_of (open_kind k w2 st2)) in *.
  assert (Hsb : state_of r2 = sb).
  { unfold r2; rewrite Hsa, Hrun2; reflexivity. }
  assert (Hlb : CAMERA_SOURCE sb = kind_name k) by apply open_kind_label.
  destruct (open_kind_trace k w2 st2) as [t Ht].
  rewrite Hsa, Hsb.
  repeat split; try assumption.
  - unfold r1; rewrite Hrun1; reflexivity.
  - unfold r2; rewrite Hsa, Hrun2; unfold r1; rewrite Hrun1; reflexivity.
  - apply (health_check_active k (next_obj st)); assumption.
  - rewrite (health_check_active k (next_obj st) sa),
      (health_check_active k (S (next_obj st)) sb); auto.
  - exists t; unfold r2; rewrite Hsa, Hrun2.
    unfold trace at 1; cbn [snd]; rewrite Htc, Ht; reflexivity.
Qed.

Lemma switch_camera_twice_witness :
  let r1 := switch_camera "libcamera" world_no_frame
              (mkState "opencv" (Some (mkVC 0 true)) None 1) in
  let r2 := switch_camera "libcamera" world_no_frame (state_of r1) in
  active_backend (state_of r1) = Active Libcamera 1 /\
  active_backend (state_of r2) = Active Libcamera 2 /\
  result r2 = result r1 /\
  exists t, trace r2 = PC_close 1 :: Picamera2_import :: t.
Proof.
  destruct (switch_camera_twice "libcamera" Libcamera world_no_frame world_no_frame
              (mkState "opencv" (Some (mkVC 0 true)) None 1))
    as (H1 & H2 & _ & _ & _ & H6 & _ & _ & H9);
    [reflexivity|reflexivity|reflexivity|].
  cbv zeta; repeat split; assumption.
Defined.

(** ** Shutdown *)

Lemma shutdown_event_run st :
  shutdown_event st =
  (Ret tt,
   mkState (CAMERA_SOURCE st)
     (option_map (fun c => mkVC (vc_id c) false) (opencv_camera st))
     (option_map (fun c => mkPC (pc_id c) false) (libcamera_camera st))
     (next_obj st),
   match opencv_camera st with
   | Some c => [VC_release (vc_id c)]
   | None => []
   end ++
   match libcamera_camera st with
   | Some c => [PC_close (pc_id c)]
   | None => []
   end).
Proof.
  destruct st as [lab [c|] [c'|] n]; reflexivity.
Qed.




(** ** The label *)

(** C10 as stated fails for the health check: under a label that is
    neither kind, say ["usb"], frames are read from the direct-device handle
    and that handle is open, yet the health check reports that the camera is
    not working. *)
Lemma health_check_other_label_counterexample :
  let st := mkState "usb" (Some (mkVC 0 true)) None 1 in
  (lower (CAMERA_SOURCE st) =? "libcamera") = false /\
  get_frame world_jpeg st = get_frame_opencv world_jpeg st /\
  opencv_available st = true /\
  result (health_check st) = Ret (mkHealth "unhealthy" "usb" false).
Proof. repeat split. Qed.

Lemma get_frame_dispatch w st :
  get_frame w st =
  if lower (CAMERA_SOURCE st) =? "libcamera" then get_frame_libcamera w st
  else get_frame_opencv w st.
Proof.
  unfold get_frame, bind, get.
  destruct (lower (CAMERA_SOURCE st) =? "libcamera").
  - destruct (get_frame_libcamera w st) as [[r s] t]; reflexivity.
  - destruct (get_frame_opencv w st) as [[r s] t]; reflexivity.
Qed.

(** C10, amended. Frame retrieval treats every label that is not
    ["libcamera"] up to case as the direct-device backend.  The health check
    looks at the direct-device handle only when the label is ["opencv"] up to
    case, at the tuned-sensor handle when it is ["libcamera"] up to case, and
    reports "not working" under any other label.  [switch_camera] accepts a
    source exactly when its lower-cased form is one of the two names, and
    then stores that lower-cased form. *)
Theorem label_case_insensitive st w source :
  ((lower (CAMERA_SOURCE st) =? "libcamera") = false ->
   get_frame w st = get_frame_opencv w st) /\
  ((lower (CAMERA_SOURCE st) =? "libcamera") = true ->
   get_frame w st = get_frame_libcamera w st) /\
  ((lower (CAMERA_SOURCE st) =? "opencv") = true ->
   result (health_check st) =
     Ret (mkHealth (if opencv_available st then "healthy" else "unhealthy")
                   (CAMERA_SOURCE st) (opencv_available st))) /\
  ((lower (CAMERA_SOURCE st) =? "libcamera") = true ->
   result (health_check st) =
     Ret (mkHealth (if libcamera_available st then "healthy" else "unhealthy")
                   (CAMERA_SOURCE st) (libcamera_available st))) /\
  ((lower (CAMERA_SOURCE st) =? "opencv") = false ->
   (lower (CAMERA_SOURCE st) =? "libcamera") = false ->
   result (health_check st) =
     Ret (mkHealth "unhealthy" (CAMERA_SOURCE st) false)) /\
  (((lower source =? "opencv") || (lower source =? "libcamera"))%bool = true ->
   CAMERA_SOURCE (state_of (switch_camera source w st)) = lower source /\
   exists success,
     result (switch_camera source w st) =
       Ret (Switched ("Switched to " ++ lower source ++ " camera") success
                     (lower source))) /\
  (((lower source =? "opencv") || (lower source =? "libcamera"))%bool = false ->
   switch_camera source w st =
     (Ret (SwitchError "Invalid camera source. Use 'opencv' or 'libcamera'"),
      st, [])).
Proof.
  repeat split.
  - intros H; rewrite get_frame_dispatch, H; reflexivity.
  - intros H; rewrite get_frame_dispatch, H; reflexivity.
  - intros H; unfold health_check, bind, get, ret, result; simpl.
    rewrite H; reflexivity.
  - intros H; unfold health_check, bind, get, ret, result; simpl.
    rewrite H.
    destruct (lower (CAMERA_SOURCE st) =? "opencv") eqn:Ho; [|reflexivity].
    apply String.eqb_eq in Ho, H; rewrite Ho in H; discriminate.
  - intros Ho Hl; unfold health_check, bind, get, ret, result; simpl.
    rewrite Ho, Hl; reflexivity.
  - apply Bool.orb_true_iff in H.
    assert (Hk : exists k, lower source = kind_name k).
    { destruct H as [H|H]; apply String.eqb_eq in H;
        [exists Opencv|exists Libcamera]; exact H. }
    destruct Hk as [k Hk].
    destruct (switch_camera_run source k w st Hk) as (s & _ & Hrun).
    cbv zeta in Hrun; rewrite Hrun, Hk.
    unfold state_of; cbn [fst snd]; apply open_kind_label.
  - apply Bool.orb_true_iff in H.
    assert (Hk : exists k, lower source = kind_name k).
    { destruct H as [H|H]; apply String.eqb_eq in H;
        [exists Opencv|exists Libcamera]; exact H. }
    destruct Hk as [k Hk].
    destruct (switch_camera_run source k w st Hk) as (s & _ & Hrun).
    cbv zeta in Hrun; rewrite Hrun, Hk.
    exists s; reflexivity.
  - intros H; unfold switch_camera.
    replace (str_in (lower source) ["opencv"; "libcamera"]) with false;
      [reflexivity|].
    simpl; rewrite Bool.orb_false_r; symmetry; exact H.
Qed.

Lemma label_case_insensitive_witness :
  get_frame world_jpeg (mkState "USB" (Some (mkVC 0 true)) None 1) =
    get_frame_opencv world_jpeg (mkState "USB" (Some (mkVC 0 true)) None 1) /\
  result (health_check (mkState "OpenCV" (Some (mkVC 0 true)) None 1)) =
    Ret (mkHealth "healthy" "OpenCV" true) /\
  result (health_check (mkState "USB" (Some (mkVC 0 true)) None 1)) =
    Ret (mkHealth "unhealthy" "USB" false) /\
  CAMERA_SOURCE
    (state_of (switch_camera "LibCamera" world_no_frame
                 (mkState "USB" (Some (mkVC 0 true)) None 1))) = "libcamera".
Proof.
  destruct (label_case_insensitive
              (mkState "USB" (Some (mkVC 0 true)) None 1) world_jpeg "x")
    as (H1 & _ & _ & _ & H5 & _).
  destruct (label_case_insensitive
              (mkState "OpenCV" (Some (mkVC 0 true)) None 1) world_jpeg "x")
    as (_ & _ & H3 & _).
  destruct (label_case_insensitive
              (mkState "USB" (Some (mkVC 0 true)) None 1) world_no_frame "LibCamera")
    as (_ & _ & _ & _ & _ & H6 & _).
  split; [apply H1; reflexivity|].
  split; [apply H3; reflexivity|].
  split; [apply H5; reflexivity|].
  apply H6; reflexivity.
Defined.

(** ** Start-up *)

(** The fallback of [startup_event] opens the direct-device handle but
    leaves the label at ["libcamera"]: whatever the devices answer later,
    [get_frame] reads nothing. *)
Lemma startup_fallback_reads_nothing w w' st :
  (lower (CAMERA_SOURCE st) =? "libcamera") = true ->
  libcamera_camera st = None ->
  w_Picamera2 w = PCImportError ->
  w_VideoCapture w = VCObj true ->
  let st' := state_of (startup_event w st) in
  opencv_camera st' = Some (mkVC (next_obj st) true) /\
  get_frame w' st' = (Ret None, st', []).
Proof.
  intros Hlab Hlc Hpc Hvc.
  destruct st as [lab oc lc n]; simpl in Hlab, Hlc; subst lc.
  unfold startup_event, bind, get; simpl; rewrite Hlab.
  rewrite init_libcamera_run, Hpc; simpl.
  rewrite init_opencv_camera_run, Hvc; simpl.
  split; [reflexivity|].
  rewrite get_frame_dispatch; simpl; rewrite Hlab; reflexivity.
Qed.

(** C1, at the failing input: configured kind tuned-sensor, the support
    library missing, the direct-device open succeeding.  The fallback opens
    handle 0, and reading it directly would give a frame; but [get_frame]
    makes no library call and returns no frame, and the health check
    reports the service unhealthy. *)
Theorem startup_fallback_not_served :
  let st := state_of (startup_event world_fallback
                        (mkState "libcamera" None None 0)) in
  startup_event world_fallback (mkState "libcamera" None None 0) =
    (Ret tt, mkState "libcamera" (Some (mkVC 0 true)) None 1,
     [Picamera2_import; VideoCapture_call]) /\
  get_frame_opencv world_fallback st =
    (Ret (Some [[[10; 20; 30]]]%N), st, [VC_read 0]) /\
  get_frame world_fallback st = (Ret None, st, []) /\
  active_backend st = Uninitialized /\
  result (health_check st) = Ret (mkHealth "unhealthy" "libcamera" false).
Proof. repeat split. Qed.

(** C2, at the failing inputs.  A direct-device open that reports "not
    ready", and a tuned-sensor open whose start raises, both return [false];
    yet each leaves its handle in the global, [get_frame] then calls the read
    of that very handle, and for the tuned-sensor kind the health check
    reports a working camera. *)
Theorem failed_handle_is_read :
  (let r := init_opencv_camera world_not_ready
              (mkState "opencv" None None 0) in
   result r = Ret false /\
   opencv_camera (state_of r) = Some (mkVC 0 false) /\
   trace (get_frame world_not_ready (state_of r)) = [VC_read 0]) /\
  (let r := init_libcamera world_not_ready
              (mkState "libcamera" None None 0) in
   result r = Ret false /\
   libcamera_camera (state_of r) = Some (mkPC 0 false) /\
   trace (get_frame world_not_ready (state_of r)) = [PC_capture_array 0] /\
   result (health_check (state_of r)) =
     Ret (mkHealth "healthy" "libcamera" true)).
Proof. repeat split. Qed.

(** * Further properties of the module *)

(** ** Frame retrieval *)

Lemma get_frame_opencv_run w st :
  get_frame_opencv w st =
  match opencv_camera st with
  | None => (Ret None, st, [])
  | Some c =>
      (if vc_opened c then
         match w_read w with
         | VRRaise => Raise Error
         | VRFail => Ret None
         | VROk f => Ret (Some f)
         end
       else Ret None,
       st, [VC_read (vc_id c)])
  end.
Proof.
  unfold get_frame_opencv, VideoCapture_read, bind, get, emit; simpl.
  destruct (opencv_camera st) as [[h [|]]|]; simpl; try reflexivity.
  destruct (w_read w); reflexivity.
Qed.

Lemma get_frame_libcamera_never_raises w st e :
  result (get_frame_libcamera w st) <> Raise e.
Proof.
  unfold get_frame_libcamera, bind, get, result; simpl.
  destruct (libcamera_camera st) as [c|]; simpl; [|discriminate].
  unfold try_except, Picamera2_capture_array, bind, emit; simpl.
  destruct (w_capture_array w) as [| |f]; simpl; try discriminate.
  destruct (size f =? 0)%nat; simpl; [discriminate|].
  unfold cv2_cvtColor_RGB2BGR.
  destruct (COLOR_RGB2BGR f); discriminate.
Qed.

(** X1. [get_frame] never changes the globals.  It raises only in one
    situation: the label selects the direct device, the recorded capture is
    opened, and its [read()] raises; every failure of the tuned sensor is
    turned into "no frame". *)
Theorem get_frame_raises_iff w st e :
  state_of (get_frame w st) = st /\
  (result (get_frame w st) = Raise e <->
   e = Error /\ selected_kind st = Opencv /\
   exists c, opencv_camera st = Some c /\ vc_opened c = true /\
             w_read w = VRRaise).
Proof.
  split; [apply get_frame_state|].
  rewrite get_frame_dispatch; unfold selected_kind.
  destruct (lower (CAMERA_SOURCE st) =? "libcamera").
  - split.
    + intros H; exfalso; exact (get_frame_libcamera_never_raises w st e H).
    + intros (_ & H & _); discriminate.
  - rewrite get_frame_opencv_run.
    destruct (opencv_camera st) as [[h o]|]; unfold result; simpl.
    + destruct o; simpl.
      * destruct (w_read w) eqn:Hr; split; try discriminate.
        -- intros H; injection H as <-; repeat split.
           exists (mkVC h true); auto.
        -- intros (-> & _); reflexivity.
        -- intros (_ & _ & c & _ & _ & H); discriminate.
        -- intros (_ & _ & c & _ & _ & H); discriminate.
      * split; [discriminate|].
        intros (_ & _ & c & Hc & Ho & _); injection Hc as <-; discriminate.
    + split; [discriminate|].
      intros (_ & _ & c & Hc & _); discriminate.
Qed.

Lemma get_frame_raises_iff_witness :
  result (get_frame world_read_raises
            (mkState "opencv" (Some (mkVC 0 true)) None 1)) = Raise Error.
Proof.
  apply (get_frame_raises_iff world_read_raises
           (mkState "opencv" (Some (mkVC 0 true)) None 1) Error).
  split; [reflexivity|split; [reflexivity|]].
  exists (mkVC 0 true); repeat split.
Defined.

(** X2. Under a label that selects the direct device, [get_frame] returns a
    frame exactly when a capture is recorded, it is opened and its [read()]
    succeeds; the frame is the one read, unchanged. *)
Theorem get_frame_direct_frame w st f :
  selected_kind st = Opencv ->
  (result (get_frame w st) = Ret (Some f) <->
   exists c, opencv_camera st = Some c /\ vc_opened c = true /\
             w_read w = VROk f).
Proof.
  unfold selected_kind; intros Hsel.
  rewrite get_frame_dispatch.
  destruct (lower (CAMERA_SOURCE st) =? "libcamera"); [discriminate|].
  rewrite get_frame_opencv_run.
  destruct (opencv_camera st) as [[h o]|]; unfold result; simpl.
  - destruct o; simpl.
    + destruct (w_read w) eqn:Hr; split; try discriminate.
      * intros (c & _ & _ & H); discriminate.
      * intros (c & _ & _ & H); discriminate.
      * intros H; injection H as <-; exists (mkVC h true); auto.
      * intros (c & _ & _ & H); injection H as <-; reflexivity.
    + split; [discriminate|].
      intros (c & Hc & Ho & _); injection Hc as <-; discriminate.
  - split; [discriminate|].
    intros (c & Hc & _); discriminate.
Qed.

Lemma get_frame_direct_frame_witness :
  result (get_frame world_jpeg (mkState "usb" (Some (mkVC 0 true)) None 1)) =
  Ret (Some [[[1; 2; 3]]]%N).
Proof.
  apply (get_frame_direct_frame world_jpeg
           (mkState "usb" (Some (mkVC 0 true)) None 1)).
  - reflexivity.
  - exists (mkVC 0 true); repeat split.
Defined.

(** ** The stream generator, turn by turn *)

Lemma bind_raise {A B} (m : M A) (k : A -> M B) st e st1 t1 :
  m st = (Raise e, st1, t1) -> bind m k st = (Raise e, st1, t1).
Proof. intros H; unfold bind; rewrite H; reflexivity. Qed.

Lemma gen_frames_body_run w st :
  gen_frames_body w st =
  match result (get_frame w st) with
  | Raise e => (Raise e, st, trace (get_frame w st))
  | Ret None => (Ret tt, st, trace (get_frame w st) ++ [Sleep 100])
  | Ret (Some f) =>
      match w_imencode w with
      | EncRet true buf =>
          (Ret tt, st, trace (get_frame w st) ++ [Yield (part buf)])
      | _ => (Ret tt, st, trace (get_frame w st) ++ [Sleep 100])
      end
  end.
Proof.
  pose proof (get_frame_state w st) as Hs.
  unfold gen_frames_body, bind.
  destruct (get_frame w st) as [[r s] t].
  unfold state_of in Hs; simpl in Hs; subst s.
  unfold result, trace; simpl.
  destruct r as [[f|]|e]; try reflexivity.
  unfold try_except, cv2_imencode, bind.
  destruct (w_imencode w) as [|[|] buf]; reflexivity.
Qed.

(** X3. One turn of the generator never changes the globals.  It raises
    exactly when [get_frame] raises.  Otherwise it does exactly one of two
    things: it yields one part, which happens exactly when a frame was read
    and [imencode] returned [(True, buffer)], or it sleeps the 100 ms delay
    once, which happens when no frame was read, when [imencode] returned
    [False], and when [imencode] raised. *)
Theorem gen_frames_body_turn w st :
  exists r t,
    gen_frames_body w st = (r, st, t) /\
    (forall e, r = Raise e <-> result (get_frame w st) = Raise e) /\
    (r = Ret tt ->
     (exists f buf,
        result (get_frame w st) = Ret (Some f) /\
        w_imencode w = EncRet true buf /\
        yields t = [part buf] /\ sleeps t = [])
     \/
     ((result (get_frame w st) = Ret None \/
       exists f, result (get_frame w st) = Ret (Some f) /\
                 (w_imencode w = EncRaise \/
                  exists buf, w_imencode w = EncRet false buf)) /\
      yields t = [] /\ sleeps t = [100])) /\
    (r <> Ret tt -> yields t = [] /\ sleeps t = []).
Proof.
  rewrite gen_frames_body_run.
  pose proof (get_frame_no_yield w st) as Hy.
  pose proof (get_frame_no_sleep w st) as Hz.
  destruct (result (get_frame w st)) as [[f|]|e].
  - destruct (w_imencode w) as [|[|] buf] eqn:He;
      eexists _, _; (split; [reflexivity|]);
      rewrite yields_app, sleeps_app, Hy, Hz; simpl;
      (split; [intros e; split; discriminate|]);
      (split; [intros _|intros H; contradiction H; reflexivity]).
    + right; split; [right; exists f; auto|auto].
    + left; exists f, buf; auto.
    + right; split; [right; exists f; split; [reflexivity|right; exists buf; reflexivity]|auto].
  - eexists _, _; split; [reflexivity|].
    rewrite yields_app, sleeps_app, Hy, Hz; simpl.
    split; [intros e; split; discriminate|].
    split; [intros _; right; auto|intros H; contradiction H; reflexivity].
  - eexists _, _; split; [reflexivity|].
    rewrite Hy, Hz.
    split; [intros e'; split; intros H; injection H as <-; reflexivity|].
    split; [discriminate|auto].
Qed.

Lemma gen_frames_body_turn_witness :
  exists t,
    gen_frames_body world_no_frame
      (mkState "opencv" (Some (mkVC 0 true)) None 1) =
      (Ret tt, mkState "opencv" (Some (mkVC 0 true)) None 1, t) /\
    yields t = [] /\ sleeps t = [100].
Proof.
  destruct (gen_frames_body_turn world_no_frame
              (mkState "opencv" (Some (mkVC 0 true)) None 1))
    as (r & t & Hrun & Hraise & Hret & _).
  assert (Hr : r = Ret tt).
  { assert (He : result (gen_frames_body world_no_frame
                           (mkState "opencv" (Some (mkVC 0 true)) None 1)) = r)
      by (rewrite Hrun; reflexivity).
    rewrite <- He; reflexivity. }
  subst r; exists t; split; [exact Hrun|].
  destruct (Hret eq_refl) as [(f & buf & Hf & _)|(_ & Hy & Hz)];
    [discriminate Hf|auto].
Defined.

Lemma gen_frames_body_measure w st :
  state_of (gen_frames_body w st) = st /\
  Forall (fun c => exists buf, c = part buf)
         (yields (trace (gen_frames_body w st))) /\
  Forall (fun ms => ms = 100) (sleeps (trace (gen_frames_body w st))) /\
  match result (gen_frames_body w st) with
  | Ret _ =>
      List.length (yields (trace (gen_frames_body w st))) +
      List.length (sleeps (trace (gen_frames_body w st))) = 1 /\
      forall e, result (get_frame w st) <> Raise e
  | Raise e =>
      yields (trace (gen_frames_body w st)) = [] /\
      sleeps (trace (gen_frames_body w st)) = [] /\
      result (get_frame w st) = Raise e
  end.
Proof.
  rewrite gen_frames_body_run.
  pose proof (get_frame_no_yield w st) as Hy.
  pose proof (get_frame_no_sleep w st) as Hz.
  destruct (result (get_frame w st)) as [[f|]|e];
    [destruct (w_imencode w) as [|[|] buf]| |];
    unfold state_of, trace, result in *; cbn [fst snd] in *;
    rewrite ?yields_app, ?sleeps_app, Hy, Hz; simpl;
    repeat split; try discriminate; repeat constructor.
  exists buf; reflexivity.
Qed.

(** X4. Over any number of turns the generator leaves the globals as they
    were, every chunk it yields is a framed part, every delay it sleeps is
    100 ms, and as long as it has not raised each turn accounts for exactly
    one of the two: after [n] turns, chunks plus delays are [n]. *)
Theorem gen_frames_accounting n ws i st :
  state_of (gen_frames n ws i st) = st /\
  Forall (fun c => exists buf, c = part buf)
         (yields (trace (gen_frames n ws i st))) /\
  Forall (fun ms => ms = 100) (sleeps (trace (gen_frames n ws i st))) /\
  List.length (yields (trace (gen_frames n ws i st))) +
  List.length (sleeps (trace (gen_frames n ws i st))) <= n /\
  (result (gen_frames n ws i st) = Ret tt ->
   List.length (yields (trace (gen_frames n ws i st))) +
   List.length (sleeps (trace (gen_frames n ws i st))) = n).
Proof.
  revert i; induction n as [|n IH]; intros i; simpl.
  - repeat split; try constructor.
  - destruct (gen_frames_body_measure (ws i) st) as (Hs & Hy & Hz & Hr).
    pose proof (run_eq (gen_frames_body (ws i) st)) as Hb.
    rewrite Hs in Hb.
    revert Hb Hr.
    destruct (result (gen_frames_body (ws i) st)) as [[]|e]; intros Hb Hr.
    + destruct Hr as [Hone _].
      destruct (IH (S i)) as (Is & Iy & Iz & Ile & Ieq).
      rewrite (bind_run _ _ _ _ _ _ Hb).
      unfold state_of, trace, result in *; cbn [fst snd] in *.
      rewrite yields_app, sleeps_app, !length_app.
      repeat split; auto.
      * apply Forall_app; auto.
      * apply Forall_app; auto.
      * lia.
      * intros H; specialize (Ieq H); lia.
    + destruct Hr as (Hy0 & Hz0 & _).
      rewrite (bind_raise _ _ _ _ _ _ Hb).
      unfold state_of, trace, result in *; cbn [fst snd] in *.
      rewrite Hy0, Hz0; simpl.
      repeat split; try constructor; try lia; discriminate.
Qed.

Lemma gen_frames_accounting_witness :
  List.length
    (yields (trace (gen_frames 2 worlds_then_raise 0
                      (mkState "opencv" (Some (mkVC 0 true)) None 1)))) +
  List.length
    (sleeps (trace (gen_frames 2 worlds_then_raise 0
                      (mkState "opencv" (Some (mkVC 0 true)) None 1)))) = 2.
Proof.
  destruct (gen_frames_accounting 2 worlds_then_raise 0
              (mkState "opencv" (Some (mkVC 0 true)) None 1))
    as (_ & _ & _ & _ & H).
  apply H; reflexivity.
Defined.

(** X5. The stream ends with an exception exactly when some [get_frame]
    raises: the generator raises at the first turn whose read raises, with
    that exception, and at no other moment. *)
Theorem gen_frames_raises_iff n ws i st e :
  result (gen_frames n ws i st) = Raise e <->
  exists j,
    j < n /\
    result (get_frame (ws (i + j)) st) = Raise e /\
    forall j', j' < j ->
      forall e', result (get_frame (ws (i + j')) st) <> Raise e'.
Proof.
  revert i; induction n as [|n IH]; intros i; simpl.
  - split; [discriminate|intros (j & Hj & _); lia].
  - destruct (gen_frames_body_measure (ws i) st) as (Hs & _ & _ & Hr).
    pose proof (run_eq (gen_frames_body (ws i) st)) as Hb.
    rewrite Hs in Hb.
    revert Hb Hr.
    destruct (result (gen_frames_body (ws i) st)) as [[]|e0]; intros Hb Hr.
    + destruct Hr as [_ Hno].
      rewrite (bind_run _ _ _ _ _ _ Hb).
      unfold result at 1; cbn [fst].
      rewrite IH; split.
      * intros (j & Hj & Hraise & Hfirst).
        exists (S j); split; [lia|].
        rewrite Nat.add_succ_r; split; [exact Hraise|].
        intros [|j'] Hj'; [rewrite Nat.add_0_r; apply Hno|].
        rewrite Nat.add_succ_r; apply Hfirst; lia.
      * intros ([|j] & Hj & Hraise & Hfirst).
        -- rewrite Nat.add_0_r in Hraise; contradiction (Hno e).
        -- exists j; split; [lia|].
           rewrite Nat.add_succ_r in Hraise; split; [exact Hraise|].
           intros j' Hj'.
           specialize (Hfirst (S j')); rewrite Nat.add_succ_r in Hfirst.
           apply Hfirst; lia.
    + destruct Hr as (_ & _ & Hraise0).
      rewrite (bind_raise _ _ _ _ _ _ Hb).
      unfold result at 1; cbn [fst]; split.
      * intros H; injection H as <-.
        exists 0; split; [lia|].
        rewrite Nat.add_0_r; split; [exact Hraise0|].
        intros j' Hj'; lia.
      * intros ([|j] & Hj & Hraise & Hfirst).
        -- rewrite Nat.add_0_r, Hraise0 in Hraise.
           injection Hraise as <-; reflexivity.
        -- exfalso; apply (Hfirst 0 ltac:(lia) e0).
           rewrite Nat.add_0_r; exact Hraise0.
Qed.

Lemma gen_frames_raises_iff_witness :
  result (gen_frames 5 worlds_then_raise 0
            (mkState "opencv" (Some (mkVC 0 true)) None 1)) = Raise Error.
Proof.
  apply (gen_frames_raises_iff 5 worlds_then_raise 0
           (mkState "opencv" (Some (mkVC 0 true)) None 1) Error).
  exists 2; split; [lia|split; [reflexivity|]].
  intros [|[|j']] Hj e'; try lia; discriminate.
Defined.

Lemma part_inj b1 b2 : part b1 = part b2 -> b1 = b2.
Proof.
  unfold part; intros H.
  apply app_inv_head in H; apply app_inv_head in H.
  apply app_inv_tail in H; exact H.
Qed.

(** X6. The framing of a part adds 39 bytes to the encoded image, starts
    with the boundary line, ends with CRLF, and loses nothing: two parts are
    equal only if their payloads are. *)
Theorem part_framing buf :
  List.length (part buf) = 39 + List.length buf /\
  is_prefix (b "--frame" ++ [x0d; x0a]) (part buf) = true /\
  (exists body, part buf = body ++ [x0d; x0a]) /\
  (forall buf', part buf = part buf' -> buf = buf').
Proof.
  split; [|split; [|split]].
  - unfold part; rewrite !length_app; simpl; lia.
  - reflexivity.
  - exists ((b "--frame" ++ CRLF) ++
            (b "Content-Type: image/jpeg" ++ CRLF ++ CRLF) ++ buf).
    unfold part, CRLF; rewrite <- !app_assoc; reflexivity.
  - intros buf'; apply part_inj.
Qed.

Lemma part_framing_witness :
  List.length (part [xff; xd8]) = 41 /\
  [xff; xd8] = removelast (removelast (skipn 37 (part [xff; xd8]))).
Proof.
  destruct (part_framing [xff; xd8]) as (Hlen & _ & _ & Hinj).
  split; [exact Hlen|].
  apply Hinj; reflexivity.
Defined.

(** ** The single-frame handler *)

Lemma test_frame_run describe w st :
  test_frame describe w st =
  match result (get_frame w st) with
  | Raise e => (Raise e, st, trace (get_frame w st))
  | Ret None =>
      (Ret (TestFailure "Failed to capture frame"), st,
       trace (get_frame w st))
  | Ret (Some f) =>
      (Ret match w_imencode w with
           | EncRaise =>
               TestFailure ("Error processing frame: " ++ describe Error)
           | EncRet false _ => TestFailure "Failed to encode frame"
           | EncRet true buf => TestImage buf "image/jpeg"
           end,
       st, trace (get_frame w st))
  end.
Proof.
  pose proof (get_frame_state w st) as Hs.
  unfold test_frame, bind.
  destruct (get_frame w st) as [[r s] t].
  unfold state_of in Hs; simpl in Hs; subst s.
  unfold result, trace; simpl.
  destruct r as [[f|]|e];
    try (unfold ret; rewrite ?app_nil_r; reflexivity).
  unfold try_except, cv2_imencode, bind.
  destruct (w_imencode w) as [|[|] buf]; simpl; rewrite ?app_nil_r;
    reflexivity.
Qed.

(** X7. [test_frame] leaves the globals alone and makes the library calls
    of one [get_frame], nothing more.  It raises exactly when [get_frame]
    raises (the read of the direct device is outside its [try]); it answers
    "Failed to capture frame" exactly when no frame was read, "Failed to
    encode frame" exactly when [imencode] returned [False], an image exactly
    when [imencode] returned [(True, buffer)] (the buffer is the content, the
    type is image/jpeg), and the text of the exception when [imencode]
    raised. *)
Theorem test_frame_outcomes describe w st :
  state_of (test_frame describe w st) = st /\
  trace (test_frame describe w st) = trace (get_frame w st) /\
  (forall e, result (test_frame describe w st) = Raise e <->
             result (get_frame w st) = Raise e) /\
  (result (test_frame describe w st) =
     Ret (TestFailure "Failed to capture frame") <->
   result (get_frame w st) = Ret None) /\
  (result (test_frame describe w st) =
     Ret (TestFailure "Failed to encode frame") <->
   exists f buf, result (get_frame w st) = Ret (Some f) /\
                 w_imencode w = EncRet false buf) /\
  (forall buf mt,
     result (test_frame describe w st) = Ret (TestImage buf mt) <->
     mt = "image/jpeg" /\
     exists f, result (get_frame w st) = Ret (Some f) /\
               w_imencode w = EncRet true buf) /\
  (forall f, result (get_frame w st) = Ret (Some f) ->
             w_imencode w = EncRaise ->
             result (test_frame describe w st) =
               Ret (TestFailure
                      ("Error processing frame: " ++ describe Error))).
Proof.
  rewrite test_frame_run.
  destruct (result (get_frame w st)) as [[f|]|e0];
    [destruct (w_imencode w) as [|[|] buf0]| |];
    unfold state_of, trace, result; cbn [fst snd];
    repeat match goal with
           | |- _ /\ _ => split
           | |- _ <-> _ => split
           | |- forall _, _ => intro
           end;
    repeat match goal with
           | H : exists _, _ |- _ => destruct H
           | H : _ /\ _ |- _ => destruct H
           end;
    try discriminate; try reflexivity;
    repeat match goal with
           | H : Ret _ = Ret _ |- _ => injection H as H
           | H : Raise _ = Raise _ |- _ => injection H as H
           | H : TestImage _ _ = TestImage _ _ |- _ => injection H as H
           | H : Some _ = Some _ |- _ => injection H as H
           | H : EncRet _ _ = EncRet _ _ |- _ => injection H as H
           end;
    subst; try discriminate; try reflexivity; eauto.
Qed.

Lemma test_frame_outcomes_witness :
  result (test_frame (fun _ => "imencode failed") world_rgb
            (mkState "libcamera" None (Some (mkPC 0 true)) 1)) =
  Ret (TestFailure "Error processing frame: imencode failed").
Proof.
  destruct (test_frame_outcomes (fun _ => "imencode failed") world_rgb
              (mkState "libcamera" None (Some (mkPC 0 true)) 1))
    as (_ & _ & _ & _ & _ & _ & H).
  apply (H [[[50; 100; 200]; [3; 2; 1]]; [[7; 8; 9]; [255; 0; 0]]]%N);
    reflexivity.
Defined.

(** X8. [test_frame] and the stream agree: in the same state and with the
    same answers of the libraries, [test_frame] returns an image with
    content [buf] exactly when a turn of the generator yields the part that
    frames [buf]. *)
Theorem test_frame_matches_stream describe w st buf :
  result (test_frame describe w st) = Ret (TestImage buf "image/jpeg") <->
  yields (trace (gen_frames_body w st)) = [part buf].
Proof.
  rewrite test_frame_run, gen_frames_body_run.
  pose proof (get_frame_no_yield w st) as Hy.
  destruct (result (get_frame w st)) as [[f|]|e0];
    [destruct (w_imencode w) as [|[|] buf0]| |];
    unfold trace, result in *; cbn [fst snd] in *;
    rewrite ?yields_app, Hy; cbn [yields app]; split; intros H;
    try discriminate.
  - injection H as <-; reflexivity.
  - assert (Hp : part buf0 = part buf) by congruence.
    apply part_inj in Hp; subst; reflexivity.
Qed.

Lemma test_frame_matches_stream_witness :
  result (test_frame (fun _ => "error") world_jpeg
            (mkState "opencv" (Some (mkVC 0 true)) None 1)) =
  Ret (TestImage [xff; xd8; xff; xd9] "image/jpeg").
Proof.
  apply (test_frame_matches_stream (fun _ => "error") world_jpeg
           (mkState "opencv" (Some (mkVC 0 true)) None 1)).
  reflexivity.
Defined.

(** ** Start-up, case by case *)

Lemma startup_event_run w st :
  startup_event w st =
  if lower (CAMERA_SOURCE st) =? "libcamera" then
    match result (init_libcamera w st) with
    | Ret true =>
        (Ret tt, state_of (init_libcamera w st), trace (init_libcamera w st))
    | _ =>
        (Ret tt,
         state_of (init_opencv_camera w (state_of (init_libcamera w st))),
         trace (init_libcamera w st) ++
         trace (init_opencv_camera w (state_of (init_libcamera w st))))
    end
  else
    (Ret tt, state_of (init_opencv_camera w st),
     trace (init_opencv_camera w st)).
Proof.
  unfold startup_event, bind, get; cbv beta iota.
  destruct (lower (CAMERA_SOURCE st) =? "libcamera").
  - rewrite init_libcamera_run.
    destruct (w_Picamera2 w); cbv zeta; unfold result, state_of, trace;
      cbn [fst snd negb]; try reflexivity;
      rewrite init_opencv_camera_run;
      destruct (w_VideoCapture w); reflexivity.
  - rewrite init_opencv_camera_run.
    destruct (w_VideoCapture w); reflexivity.
Qed.

(** X9. Under a label that selects the direct device, [startup_event]
    makes a single open attempt, on the direct device, and none on the tuned
    sensor: there is no fallback.  It never raises and leaves the label and
    the tuned-sensor global alone.  An opened capture becomes the active
    backend; a capture that is not opened is recorded but the reference is
    empty; a constructor that raises leaves the state untouched. *)
Theorem startup_event_direct w st :
  selected_kind st = Opencv ->
  exists st',
    startup_event w st = (Ret tt, st', [VideoCapture_call]) /\
    CAMERA_SOURCE st' = CAMERA_SOURCE st /\
    libcamera_camera st' = libcamera_camera st /\
    (w_VideoCapture w = VCObj true ->
     active_backend st' = Active Opencv (next_obj st)) /\
    (w_VideoCapture w = VCObj false ->
     opencv_camera st' = Some (mkVC (next_obj st) false) /\
     active_backend st' = Uninitialized) /\
    (w_VideoCapture w = VCRaise -> st' = st).
Proof.
  unfold selected_kind, active_backend, selected_kind; intros Hsel.
  rewrite startup_event_run.
  destruct (lower (CAMERA_SOURCE st) =? "libcamera") eqn:Hl; [discriminate|].
  rewrite init_opencv_camera_run.
  destruct st as [lab oc lc n]; simpl in Hl.
  destruct (w_VideoCapture w) as [|[|]]; unfold state_of, trace;
    cbn [fst snd]; eexists; (split; [reflexivity|]);
    cbn [CAMERA_SOURCE opencv_camera libcamera_camera next_obj];
    rewrite ?Hl; cbn [vc_opened vc_id];
    repeat split; intros; try discriminate; reflexivity.
Qed.

Lemma startup_event_direct_witness :
  exists st',
    startup_event world_not_ready (mkState "opencv" None None 0) =
      (Ret tt, st', [VideoCapture_call]) /\
    active_backend st' = Uninitialized.
Proof.
  destruct (startup_event_direct world_not_ready
              (mkState "opencv" None None 0))
    as (st' & Hrun & _ & _ & _ & Hf & _); [reflexivity|].
  exists st'; split; [exact Hrun|].
  apply Hf; reflexivity.
Defined.

(** X10. Under a label that selects the tuned sensor, [startup_event] never
    raises and never changes the label.  When the tuned sensor starts, the
    direct device is not touched and the tuned sensor is active.  When it
    does not, the direct device is opened as a fallback, once, after the
    failed attempt; but the label still selects the tuned sensor, so no
    later [get_frame] reads the direct-device handle. *)
Theorem startup_event_tuned w st :
  selected_kind st = Libcamera ->
  exists st' t,
    startup_event w st = (Ret tt, st', t) /\
    CAMERA_SOURCE st' = CAMERA_SOURCE st /\
    (w_Picamera2 w = PCStarted ->
     ~ In VideoCapture_call t /\
     opencv_camera st' = opencv_camera st /\
     active_backend st' = Active Libcamera (next_obj st)) /\
    (w_Picamera2 w <> PCStarted ->
     (exists t1, t = t1 ++ [VideoCapture_call] /\ ~ In VideoCapture_call t1) /\
     (forall o, w_VideoCapture w = VCObj o ->
                exists h, opencv_camera st' = Some (mkVC h o)) /\
     forall w' h, ~ In (VC_read h) (trace (get_frame w' st'))).
Proof.
  unfold selected_kind; intros Hsel.
  destruct (lower (CAMERA_SOURCE st) =? "libcamera") eqn:Hl; [|discriminate].
  rewrite startup_event_run, Hl, init_libcamera_run.
  destruct st as [lab oc lc n]; simpl in Hl.
  assert (Hread : forall oc' lc' n' w' h,
    ~ In (VC_read h) (trace (get_frame w' (mkState lab oc' lc' n')))).
  { intros oc' lc' n' w' h; rewrite get_frame_trace.
    unfold selected_kind; simpl; rewrite Hl.
    destruct lc' as [c|]; simpl; [intros [H|[]]; discriminate|auto]. }
  destruct (w_Picamera2 w) eqn:Hpc; cbv zeta; unfold result, state_of, trace;
    cbn [fst snd]; try rewrite init_opencv_camera_run;
    try (destruct (w_VideoCapture w) as [|[|]] eqn:Hvc);
    cbn [fst snd CAMERA_SOURCE opencv_camera libcamera_camera next_obj];
    eexists _, _; (split; [reflexivity|]); (split; [reflexivity|]);
    (split; [intros Hs; try discriminate|intros Hs]).
  all: try (contradiction Hs; reflexivity).
  all: try (split; [|split];
            [eexists; split; [reflexivity|];
             simpl; intros H;
             repeat (destruct H as [H|H]; [discriminate H|]); exact H
            |intros o Ho; try discriminate; injection Ho as <-;
             eexists; reflexivity
            |intros w' h; apply Hread]).
  all: split; [simpl; intros H;
               repeat (destruct H as [H|H]; [discriminate H|]); exact H|].
  all: split; [reflexivity|].
  all: unfold active_backend, selected_kind; simpl; rewrite Hl; reflexivity.
Qed.

Lemma startup_event_tuned_witness :
  exists st' t1,
    startup_event world_fallback (mkState "LibCamera" None None 0) =
      (Ret tt, st', t1 ++ [VideoCapture_call]) /\
    opencv_camera st' = Some (mkVC 0 true) /\
    ~ In (VC_read 0) (trace (get_frame world_fallback st')).
Proof.
  destruct (startup_event_tuned world_fallback
              (mkState "LibCamera" None None 0))
    as (st' & t & Hrun & _ & _ & Hf); [reflexivity|].
  destruct Hf as ((t1 & -> & _) & Ho & Hr); [discriminate|].
  exists st', t1; split; [exact Hrun|].
  split; [|apply Hr].
  destruct (Ho true eq_refl) as [h Hh].
  rewrite Hh; f_equal; f_equal.
  assert (He : state_of (startup_event world_fallback
                           (mkState "LibCamera" None None 0)) = st')
    by (rewrite Hrun; reflexivity).
  rewrite <- He in Hh; vm_compute in Hh; congruence.
Defined.

(** ** The reporting handlers *)

(** X11. [health_check], [index] and [camera_info] read the globals and
    change nothing.  They report the same label.  Whenever the health check
    reports a working camera, [index] reports "healthy"; [index] reports
    "healthy" exactly when [camera_info] reports one of the two backends
    available; the status of the health check is "healthy" exactly when its
    [camera_working] flag is set; and [index] never shows the device of both
    kinds. *)
Theorem status_reports_agree cfg st :
  exists h ix ci,
    health_check st = (Ret h, st, []) /\
    index cfg st = (Ret ix, st, []) /\
    camera_info cfg st = (Ret ci, st, []) /\
    camera_source h = CAMERA_SOURCE st /\
    ix_camera_source ix = CAMERA_SOURCE st /\
    ci_camera_source ci = CAMERA_SOURCE st /\
    (camera_working h = true -> ix_status ix = "healthy") /\
    (ix_status ix = "healthy" <->
     (ci_opencv_available ci || ci_libcamera_available ci)%bool = true) /\
    (status h = "healthy" <-> camera_working h = true) /\
    (ix_opencv_device ix = None \/ ix_libcamera_device ix = None).
Proof.
  eexists _, _, _.
  split; [reflexivity|]; split; [reflexivity|]; split; [reflexivity|].
  cbn [camera_source ix_camera_source ci_camera_source camera_working
       ix_status ci_opencv_available ci_libcamera_available status
       ix_opencv_device ix_libcamera_device].
  split; [reflexivity|]; split; [reflexivity|]; split; [reflexivity|].
  destruct (opencv_available st), (libcamera_available st);
    destruct (lower (CAMERA_SOURCE st) =? "opencv") eqn:Ho;
    destruct (lower (CAMERA_SOURCE st) =? "libcamera") eqn:Hl;
    cbn [orb];
    try (apply String.eqb_eq in Ho, Hl; rewrite Ho in Hl; discriminate);
    repeat split; intros; try discriminate; auto.
Qed.

Lemma status_reports_agree_witness :
  exists ix,
    result (index (mkConfig 0 "/dev/video0" 6 30)
              (mkState "OpenCV" (Some (mkVC 0 true)) None 1)) = Ret ix /\
    ix_status ix = "healthy".
Proof.
  destruct (status_reports_agree (mkConfig 0 "/dev/video0" 6 30)
              (mkState "OpenCV" (Some (mkVC 0 true)) None 1))
    as (h & ix & ci & Hh & Hix & _ & _ & _ & _ & Himp & _).
  exists ix; split; [rewrite Hix; reflexivity|].
  apply Himp.
  assert (He : result (health_check
                         (mkState "OpenCV" (Some (mkVC 0 true)) None 1)) =
               Ret h) by (rewrite Hh; reflexivity).
  vm_compute in He; injection He as <-; reflexivity.
Defined.

(** ** Switching, for every state *)

Lemma lower_ascii_idem c : lower_ascii (lower_ascii c) = lower_ascii c.
Proof.
  destruct c as [[] [] [] [] [] [] [] []]; reflexivity.
Qed.

Lemma lower_idem s : lower (lower s) = lower s.
Proof.
  induction s as [|c s IH]; simpl; [reflexivity|].
  rewrite lower_ascii_idem, IH; reflexivity.
Qed.

(** X12. [switch_camera] only looks at the lower-cased source: a source
    and its lower-cased form are treated alike in every state and world. *)
Theorem switch_camera_lower source w st :
  switch_camera source w st = switch_camera (lower source) w st.
Proof.
  unfold switch_camera; rewrite lower_idem; reflexivity.
Qed.

Lemma open_kind_result k w st :
  (open_succeeds k w -> result (open_kind k w st) = Ret true) /\
  (~ open_succeeds k w -> result (open_kind k w st) = Ret false).
Proof.
  destruct k; simpl.
  - rewrite init_opencv_camera_run.
    destruct (w_VideoCapture w) as [|[|]]; split; intros H;
      try reflexivity; try discriminate; contradiction H; reflexivity.
  - rewrite init_libcamera_run.
    destruct (w_Picamera2 w); split; intros H;
      try reflexivity; try discriminate; contradiction H; reflexivity.
Qed.

Lemma active_backend_read k h st w :
  CAMERA_SOURCE st = kind_name k ->
  active_backend st = Active k h ->
  trace (get_frame w st) = [read_of k h].
Proof.
  destruct st as [lab oc lc n]; simpl; intros ->.
  rewrite get_frame_trace.
  unfold active_backend, selected_kind; simpl.
  destruct k; simpl.
  - destruct oc as [[io [|]]|]; simpl; try discriminate.
    intros H; injection H as <-; reflexivity.
  - destruct lc as [[il [|]]|]; simpl; try discriminate.
    intros H; injection H as <-; reflexivity.
Qed.

(** X13. For an accepted source, in every state: the answer carries the
    lower-cased source as label and message, and its success flag is set
    exactly when the open of the requested kind went through.  When it is
    set, the new handle is the active backend, the health check reports
    "healthy" under the new label, and the next [get_frame] reads the new
    handle. *)
Theorem switch_camera_success source k w st :
  lower source = kind_name k ->
  exists success,
    result (switch_camera source w st) =
      Ret (Switched ("Switched to " ++ kind_name k ++ " camera") success
                    (kind_name k)) /\
    (success = true <-> open_succeeds k w) /\
    (success = true ->
     active_backend (state_of (switch_camera source w st)) =
       Active k (next_obj st) /\
     result (health_check (state_of (switch_camera source w st))) =
       Ret (mkHealth "healthy" (kind_name k) true) /\
     forall w',
       trace (get_frame w' (state_of (switch_camera source w st))) =
         [read_of k (next_obj st)]).
Proof.
  intros Hsrc.
  destruct (switch_camera_run source k w st Hsrc) as (success & Hs & Hrun).
  cbv zeta in Hs, Hrun.
  set (st1 := set_CAMERA_SOURCE (kind_name k)
                (state_of (cleanup_current st))) in *.
  assert (Hn : next_obj st1 = next_obj st) by apply cleanup_current_next_obj.
  destruct (open_kind_result k w st1) as [Hyes Hno].
  exists success; rewrite Hrun.
  split; [reflexivity|].
  assert (Hiff : success = true <-> open_succeeds k w).
  { destruct (open_succeeds_dec k w) as [Hw|Hw].
    - rewrite (Hyes Hw) in Hs; injection Hs as <-; tauto.
    - rewrite (Hno Hw) in Hs; injection Hs as <-.
      split; [discriminate|contradiction]. }
  split; [exact Hiff|].
  intros Ht; apply Hiff in Ht.
  destruct (open_kind_success k w st1 eq_refl Ht) as (_ & Ha & _ & _).
  rewrite Hn in Ha.
  unfold state_of at 1 2 3; cbn [fst snd].
  assert (Hl : CAMERA_SOURCE (state_of (open_kind k w st1)) = kind_name k)
    by apply open_kind_label.
  split; [exact Ha|].
  split; [apply (health_check_active k (next_obj st)); assumption|].
  intros w'; apply active_backend_read; assumption.
Qed.

Lemma switch_camera_success_witness :
  exists success,
    result (switch_camera "LIBCAMERA" world_not_ready
              (mkState "opencv" (Some (mkVC 0 true)) None 1)) =
      Ret (Switched "Switched to libcamera camera" success "libcamera") /\
    success <> true.
Proof.
  destruct (switch_camera_success "LIBCAMERA" Libcamera world_not_ready
              (mkState "opencv" (Some (mkVC 0 true)) None 1))
    as (success & Hr & Hiff & _); [reflexivity|].
  exists success; split; [exact Hr|].
  intros Ht; apply Hiff in Ht; discriminate Ht.
Defined.

Lemma open_kind_other k w st :
  not_open (other k) st ->
  not_open (other k) (state_of (open_kind k w st)).
Proof.
  destruct st as [lab oc lc n].
  destruct k; simpl.
  - rewrite init_opencv_camera_run.
    destruct (w_VideoCapture w); exact (fun H => H).
  - rewrite init_libcamera_run.
    destruct (w_Picamera2 w); exact (fun H => H).
Qed.

Lemma switch_camera_state source k w st :
  lower source = kind_name k ->
  state_of (switch_camera source w st) =
  state_of (open_kind k w (set_CAMERA_SOURCE (kind_name k)
                             (state_of (cleanup_current st)))).
Proof.
  intros Hsrc.
  destruct (switch_camera_run source k w st Hsrc) as (s & _ & Hrun).
  cbv zeta in Hrun; rewrite Hrun; reflexivity.
Qed.

(** X14. The handlers keep the state consistent: if the label names one of
    the two kinds and no handle of the other kind is open, the same holds
    after an accepted switch (with the requested kind as the labelled one),
    after a rejected switch, after [shutdown_event], and after any number
    of turns of the stream, [get_frame] and [test_frame] included.  Hence at
    most one handle, the labelled one, is ever open. *)
Theorem label_names_preserved k0 st :
  label_names k0 st ->
  (forall source k w,
     lower source = kind_name k ->
     label_names k (state_of (switch_camera source w st))) /\
  (forall source w,
     str_in (lower source) ["opencv"; "libcamera"] = false ->
     label_names k0 (state_of (switch_camera source w st))) /\
  label_names k0 (state_of (shutdown_event st)) /\
  (forall w, label_names k0 (state_of (get_frame w st))) /\
  (forall describe w, label_names k0 (state_of (test_frame describe w st))) /\
  (forall n ws i, label_names k0 (state_of (gen_frames n ws i st))).
Proof.
  intros Hln; pose proof Hln as [Hlab Hother].
  split; [|split; [|split; [|split; [|split]]]].
  - intros source k w Hsrc.
    rewrite (switch_camera_state source k w st Hsrc).
    destruct (cleanup_current_labelled k0 st Hlab) as (_ & Hk0 & Hoth).
    specialize (Hoth Hother).
    split.
    + rewrite open_kind_label; apply lower_kind_name.
    + apply open_kind_other, set_CAMERA_SOURCE_not_open.
      destruct k0, k; assumption.
  - intros source w Hrej.
    unfold switch_camera; rewrite Hrej; exact Hln.
  - rewrite shutdown_event_run; unfold state_of; cbn [fst snd].
    split; [exact Hlab|].
    destruct k0; simpl.
    + destruct (libcamera_camera st); simpl; auto.
    + destruct (opencv_camera st); simpl; auto.
  - intros w; rewrite get_frame_state; exact Hln.
  - intros describe w; rewrite test_frame_run.
    destruct (result (get_frame w st)) as [[f|]|e]; exact Hln.
  - intros n ws i.
    revert i; induction n as [|n IH]; intros i; [exact Hln|].
    simpl.
    destruct (gen_frames_body_measure (ws i) st) as (Hs & _).
    pose proof (run_eq (gen_frames_body (ws i) st)) as Hb.
    rewrite Hs in Hb.
    revert Hb.
    destruct (result (gen_frames_body (ws i) st)) as [[]|e]; intros Hb.
    + rewrite (bind_run _ _ _ _ _ _ Hb); apply IH.
    + rewrite (bind_raise _ _ _ _ _ _ Hb); exact Hln.
Qed.

Lemma label_names_preserved_witness :
  label_names Libcamera
    (state_of (switch_camera "libcamera" world_no_frame
                 (mkState "opencv" (Some (mkVC 0 true)) None 1))).
Proof.
  destruct (label_names_preserved Opencv
              (mkState "opencv" (Some (mkVC 0 true)) None 1))
    as (Hsw & _); [split; simpl; auto|].
  apply Hsw; reflexivity.
Defined.

(** X15. No handle leaks from one switch to the next: after a switch that
    opened kind [k1], the next accepted switch, to either kind and whatever
    its own outcome, first closes the handle that switch opened; and when
    it goes to the other kind, the handle of [k1] is not open afterwards. *)
Theorem switch_camera_closes_previous source1 source2 k1 k2 w1 w2 st :
  lower source1 = kind_name k1 ->
  lower source2 = kind_name k2 ->
  open_succeeds k1 w1 ->
  let r1 := switch_camera source1 w1 st in
  let r2 := switch_camera source2 w2 (state_of r1) in
  (exists t, trace r2 = close_of k1 (next_obj st) :: open_attempt k2 :: t) /\
  (k2 <> k1 -> not_open k1 (state_of r2)) /\
  CAMERA_SOURCE (state_of r2) = kind_name k2.
Proof.
  intros Hs1 Hs2 Hw1 r1 r2.
  assert (Hsa : state_of r1 =
                state_of (open_kind k1 w1
                            (set_CAMERA_SOURCE (kind_name k1)
                               (state_of (cleanup_current st)))))
    by apply switch_camera_state, Hs1.
  set (st1 := set_CAMERA_SOURCE (kind_name k1)
                (state_of (cleanup_current st))) in *.
  destruct (open_kind_success k1 w1 st1 eq_refl Hw1) as (_ & _ & Hrec & _).
  assert (Hn : next_obj st1 = next_obj st) by apply cleanup_current_next_obj.
  rewrite Hn in Hrec.
  set (sa := state_of (open_kind k1 w1 st1)) in *.
  assert (Hla : lower (CAMERA_SOURCE sa) = kind_name k1).
  { unfold sa; rewrite open_kind_label; apply lower_kind_name. }
  destruct (cleanup_current_labelled k1 sa Hla) as (Htc & Hclosed & _).
  rewrite Hrec in Htc.
  destruct (switch_camera_run source2 k2 w2 sa Hs2) as (s2 & _ & Hrun).
  cbv zeta in Hrun.
  set (st2 := set_CAMERA_SOURCE (kind_name k2)
                (state_of (cleanup_current sa))) in *.
  destruct (open_kind_trace k2 w2 st2) as [t Ht].
  unfold r2; rewrite Hsa, Hrun.
  unfold trace at 1, state_of at 1 2; cbn [fst snd].
  split; [exists t; rewrite Htc, Ht; reflexivity|].
  split; [|apply open_kind_label].
  intros Hne.
  assert (Hk : k1 = other k2).
  { clear - Hne; destruct k1, k2; simpl; congruence. }
  rewrite Hk; apply open_kind_other; rewrite <- Hk.
  apply set_CAMERA_SOURCE_not_open; exact Hclosed.
Qed.

Lemma switch_camera_closes_previous_witness :
  let r1 := switch_camera "libcamera" world_no_frame
              (mkState "usb" None None 0) in
  let r2 := switch_camera "opencv" world_not_ready (state_of r1) in
  (exists t, trace r2 = PC_close 0 :: VideoCapture_call :: t) /\
  not_open Libcamera (state_of r2).
Proof.
  destruct (switch_camera_closes_previous "libcamera" "opencv"
              Libcamera Opencv world_no_frame world_not_ready
              (mkState "usb" None None 0))
    as (Ht & Hno & _); [reflexivity|reflexivity|reflexivity|].
  cbv zeta; split; [exact Ht|].
  apply Hno; discriminate.
Defined.

(** ** After shutdown *)

(** X16. After [shutdown_event] the direct device is reported unavailable
    and, under a label that selects it, every [get_frame] returns no frame.
    The tuned-sensor global is not reset, so its availability is reported as
    before: the health check reports a working camera after shutdown exactly
    when the label is ["libcamera"] up to case and a tuned-sensor object was
    recorded. *)
Theorem shutdown_event_reports st :
  opencv_available (state_of (shutdown_event st)) = false /\
  libcamera_available (state_of (shutdown_event st)) =
    libcamera_available st /\
  (forall w, selected_kind st = Opencv ->
             result (get_frame w (state_of (shutdown_event st))) = Ret None) /\
  result (health_check (state_of (shutdown_event st))) =
    Ret (mkHealth
           (if ((lower (CAMERA_SOURCE st) =? "libcamera") &&
                libcamera_available st)%bool
            then "healthy" else "unhealthy")
           (CAMERA_SOURCE st)
           ((lower (CAMERA_SOURCE st) =? "libcamera") &&
            libcamera_available st)%bool).
Proof.
  rewrite shutdown_event_run; unfold state_of; cbn [fst snd].
  destruct st as [lab oc lc n];
    unfold opencv_available, libcamera_available, selected_kind, isOpened;
    cbn [CAMERA_SOURCE opencv_camera libcamera_camera next_obj].
  split; [destruct oc; reflexivity|].
  split; [destruct lc; reflexivity|].
  split.
  - intros w Hsel.
    rewrite get_frame_dispatch; simpl.
    destruct (lower lab =? "libcamera"); [discriminate|].
    rewrite get_frame_opencv_run; simpl.
    destruct oc; reflexivity.
  - unfold health_check, bind, get, ret, result, opencv_available,
      libcamera_available, isOpened; simpl.
    destruct (lower lab =? "opencv") eqn:Ho;
      destruct (lower lab =? "libcamera") eqn:Hl;
      try (apply String.eqb_eq in Ho, Hl; rewrite Ho in Hl; discriminate);
      destruct oc, lc; reflexivity.
Qed.

Lemma shutdown_event_reports_witness :
  result (get_frame world_jpeg
            (state_of (shutdown_event
                         (mkState "opencv" (Some (mkVC 0 true)) None 1)))) =
  Ret None.
Proof.
  destruct (shutdown_event_reports
              (mkState "opencv" (Some (mkVC 0 true)) None 1))
    as (_ & _ & H & _).
  apply H; reflexivity.
Defined.

(** ** Open attempts and what a switch closes *)

(** X17. An open attempt never raises, never changes the label and never
    touches the global of the other kind.  [init_opencv_camera] returns
    [True] exactly when the constructor returned an opened capture;
    [init_libcamera] returns [True] exactly when the camera started, and
    sleeps its 2 s settle delay in that case only.  A new object is recorded
    exactly when the constructor returned, whether or not the open then went
    through; otherwise the global keeps what it held. *)
Theorem init_effects w st :
  (exists r st' t,
     init_opencv_camera w st = (Ret r, st', t) /\
     CAMERA_SOURCE st' = CAMERA_SOURCE st /\
     libcamera_camera st' = libcamera_camera st /\
     (r = true <-> w_VideoCapture w = VCObj true) /\
     (forall o, w_VideoCapture w = VCObj o ->
                opencv_camera st' = Some (mkVC (next_obj st) o)) /\
     (w_VideoCapture w = VCRaise -> st' = st)) /\
  (exists r st' t,
     init_libcamera w st = (Ret r, st', t) /\
     CAMERA_SOURCE st' = CAMERA_SOURCE st /\
     opencv_camera st' = opencv_camera st /\
     (r = true <-> w_Picamera2 w = PCStarted) /\
     (sleeps t = [2000] <-> w_Picamera2 w = PCStarted) /\
     (sleeps t = [] <-> w_Picamera2 w <> PCStarted) /\
     (w_Picamera2 w = PCImportError \/ w_Picamera2 w = PCCtorError ->
      st' = st) /\
     (w_Picamera2 w <> PCImportError -> w_Picamera2 w <> PCCtorError ->
      libcamera_camera st' = Some (mkPC (next_obj st) r))).
Proof.
  split.
  - rewrite init_opencv_camera_run.
    destruct (w_VideoCapture w) as [|[|]]; eexists _, _, _;
      (split; [reflexivity|]); simpl;
      repeat split; intros; try discriminate; try congruence.
  - rewrite init_libcamera_run.
    destruct st as [lab oc lc n].
    destruct (w_Picamera2 w); eexists _, _, _;
      (split; [reflexivity|]); simpl;
      repeat split; intros; try discriminate; try congruence;
      repeat match goal with
             | H : _ \/ _ |- _ => destruct H
             end;
      try discriminate; try congruence.
Qed.

Lemma init_effects_witness :
  exists t,
    init_libcamera world_not_ready (mkState "libcamera" None None 0) =
      (Ret false, mkState "libcamera" None (Some (mkPC 0 false)) 1, t) /\
    sleeps t = [].
Proof.
  destruct (init_effects world_not_ready (mkState "libcamera" None None 0))
    as (_ & r & st' & t & Hrun & _ & _ & Hr & _ & Hz & _ & Hrec).
  assert (Hf : r = false).
  { destruct r; [|reflexivity].
    destruct Hr as [Hr _]; discriminate (Hr eq_refl). }
  subst r; exists t; split; [|apply Hz; discriminate].
  rewrite Hrun; f_equal; f_equal.
  assert (He : state_of (init_libcamera world_not_ready
                           (mkState "libcamera" None None 0)) = st')
    by (rewrite Hrun; reflexivity).
  rewrite <- He; reflexivity.
Defined.




(** X19. [get_frame] delegates by the label: it makes at most one library
    call, the read of the object recorded for the selected kind, and when
    nothing is recorded for that kind it makes no call and returns no
    frame. *)
Theorem get_frame_delegates w st :
  (forall h, recorded (selected_kind st) st = Some h ->
             trace (get_frame w st) = [read_of (selected_kind st) h]) /\
  (recorded (selected_kind st) st = None ->
   get_frame w st = (Ret None, st, [])).
Proof.
  split.
  - intros h; rewrite get_frame_trace; unfold recorded.
    destruct (selected_kind st); simpl.
    + destruct (opencv_camera st); simpl; [|discriminate].
      intros H; injection H as <-; reflexivity.
    + destruct (libcamera_camera st); simpl; [|discriminate].
      intros H; injection H as <-; reflexivity.
  - rewrite get_frame_dispatch; unfold recorded, selected_kind.
    destruct (lower (CAMERA_SOURCE st) =? "libcamera"); simpl.
    + unfold get_frame_libcamera, bind, get; simpl.
      destruct (libcamera_camera st); [discriminate|reflexivity].
    + rewrite get_frame_opencv_run.
      destruct (opencv_camera st); [discriminate|reflexivity].
Qed.

Lemma get_frame_delegates_witness :
  trace (get_frame world_rgb
           (mkState "LIBCAMERA" (Some (mkVC 0 true)) (Some (mkPC 1 true)) 2))
  = [PC_capture_array 1].
Proof.
  destruct (get_frame_delegates world_rgb
              (mkState "LIBCAMERA" (Some (mkVC 0 true))
                       (Some (mkPC 1 true)) 2)) as [H _].
  apply (H 1); reflexivity.
Defined.
